(** * wlmaker toolkit: elements and surfaces

    A shallow embedding of [src/toolkit/element.h] and [src/toolkit/surface.c]
    of wlmaker's widget toolkit (wlmtk), and the properties of the element
    and surface contract proved over it.

    Conventions of the embedding:
    - a pointer is an address ([addr]); a pointer that may be [NULL] is an
      [option addr], and [==] on pointers is equality of addresses;
    - a C [int] and a [uint32_t] are integers in [Z]; the one place where
      the code computes with [int] has its wrap-around written out;
    - a [double] is a binary64 float;
    - a function that writes through its first argument returns the new
      value of the object; what it does to wlroots and libwayland is a new
      value of the host state;
    - a failed [BS_ASSERT] and a dereferenced [NULL] end the program: such
      functions return an [outcome]. *)

From Stdlib Require Import ZArith Lia Floats Uint63.
From stdpp Require Import base decidable option list gmap.

Open Scope Z_scope.

(** ** C data *)

(** An address. Objects of the host (wlroots surfaces, scene nodes) and of
    the toolkit (elements, surfaces, containers) are told apart by it. *)
Definition addr : Type := N.

(** [double]. *)
Definition double : Type := float.

(** The conversion of an [int] to [double] that C applies in [x + lx]. *)
Definition double_of_int (z : Z) : double :=
  if z <? 0
  then PrimFloat.opp (PrimFloat.of_uint63 (Uint63.of_Z (- z)))
  else PrimFloat.of_uint63 (Uint63.of_Z z).

(** [NAN] of math.h. *)
Definition NAN : double := PrimFloat.nan.

Definition INT_MIN : Z := - 2 ^ 31.
Definition INT_MAX : Z := 2 ^ 31 - 1.

(** The values an [int] holds. *)
Definition int_range (z : Z) : Prop := INT_MIN <= z <= INT_MAX.

(** Two's complement wrap-around into [int]. *)
Definition int_wrap (z : Z) : Z := (z + 2 ^ 31) mod 2 ^ 32 - 2 ^ 31.

(** [a - b] on [int]. *)
Definition int_sub (a b : Z) : Z := int_wrap (a - b).

(** ** Outcomes: a result, or the end of the program *)

Inductive fault : Type :=
| assertion_failed   (* BS_ASSERT(...) did not hold: abort *)
| null_dereference.  (* a NULL pointer was dereferenced or called *)

Inductive outcome (A : Type) : Type :=
| Return (a : A)
| Fault (f : fault).

Arguments Return {A} a.
Arguments Fault {A} f.

#[global] Instance outcome_ret : MRet outcome := fun A a => Return a.

#[global] Instance outcome_bind : MBind outcome := fun A B k m =>
  match m with
  | Return a => k a
  | Fault f => Fault f
  end.

(** [BS_ASSERT(cond)] of libbase. *)
Definition BS_ASSERT (cond : bool) : outcome unit :=
  if cond then Return tt else Fault assertion_failed.

(** [*ptr] for a pointer that may be NULL. *)
Definition deref {A : Type} (ptr : option A) : outcome A :=
  match ptr with
  | Some a => Return a
  | None => Fault null_dereference
  end.

(** [if (NULL != ptr) *ptr = value;] on an output parameter: [None] is a
    NULL pointer, [Some old] a pointer to a cell holding [old]. *)
Definition store_if_not_null (ptr : option Z) (value : Z) : option Z :=
  match ptr with
  | Some _ => Some value
  | None => None
  end.

(** ** libwayland signals

    A [wl_signal] is a list of listeners, and a [wl_listener] sits in at most
    one of them (the lists are intrusive: the listener carries the link). The
    signals are the host's, the listeners are embedded in toolkit objects;
    both are named by the object they are part of. *)

Inductive wl_signal : Type :=
| events_commit (wlr_surface_ptr : addr)       (* wlr_surface_ptr->events.commit *)
| events_destroy (wlr_scene_node_ptr : addr).  (* wlr_scene_node_ptr->events.destroy *)

Inductive wl_listener : Type :=
| surface_commit_listener_of (surface_ptr : addr)
    (* surface_ptr->surface_commit_listener *)
| wlr_scene_node_destroy_listener_of (element_ptr : addr).
    (* element_ptr->wlr_scene_node_destroy_listener *)

#[global] Instance wl_signal_eq_dec : EqDecision wl_signal.
Proof. solve_decision. Defined.

#[global] Instance wl_listener_eq_dec : EqDecision wl_listener.
Proof. solve_decision. Defined.

(** Every subscription there is, oldest first. *)
Definition wl_subscriptions : Type := list (wl_signal * wl_listener).

(** [wl_signal_add(signal, listener)]: appended at the end of the list. *)
Definition wl_signal_add (signal : wl_signal) (listener : wl_listener)
    (subs : wl_subscriptions) : wl_subscriptions :=
  subs ++ [(signal, listener)].

(** [wl_list_remove(&listener->link)]: the listener leaves the list it is in. *)
Definition wl_list_remove (listener : wl_listener)
    (subs : wl_subscriptions) : wl_subscriptions :=
  filter (fun sub => sub.2 <> listener) subs.

(** The listeners [wl_signal_emit(signal, data)] notifies, in order. *)
Definition wl_signal_listeners (signal : wl_signal)
    (subs : wl_subscriptions) : list wl_listener :=
  (filter (fun sub => sub.1 = signal) subs).*2.

(** ** Button events

    [button.h] is not part of the sources. surface.c reads the fields
    [type], [button] and [time_msec] of an event and names the types
    [WLMTK_BUTTON_DOWN] and [WLMTK_BUTTON_UP]; the two other types are the
    click and the double click. *)

Inductive wlmtk_button_event_type_t : Type :=
| WLMTK_BUTTON_DOWN
| WLMTK_BUTTON_UP
| WLMTK_BUTTON_CLICK
| WLMTK_BUTTON_DOUBLE_CLICK.

#[global] Instance wlmtk_button_event_type_eq_dec :
  EqDecision wlmtk_button_event_type_t.
Proof. solve_decision. Defined.

Record wlmtk_button_event_t : Type := {
  button : Z;
  type : wlmtk_button_event_type_t;
  time_msec : Z;
}.

(** ** element.h: the element and its table of virtual methods *)

Module Element.

Section Methods.

(** What the implementation of an element works on besides the element
    itself: the object the element is embedded in, and the host. *)
Context {world : Type}.

(** [struct _wlmtk_element_impl_t]. Each method gets the address of the
    element it is called for. [pointer_button] is the entry element.h tests
    for NULL before the call; the spec lists [pointer_leave] as optional
    too. *)
Record wlmtk_element_impl_t : Type := {
  destroy : addr -> world -> world;
  create_scene_node : addr -> addr -> world -> addr * world;
  get_dimensions : addr -> world -> Z * Z * Z * Z;
  get_pointer_area : addr -> world -> Z * Z * Z * Z;
  pointer_motion : addr -> double -> double -> Z -> world -> bool * world;
  pointer_button :
    option (addr -> wlmtk_button_event_t -> world -> bool * world);
  pointer_leave : option (addr -> world -> world);
}.

(** [struct _wlmtk_element_t]. [dlnode] (the link in the parent's list of
    children) is left to the container; [wlr_scene_node_destroy_listener]
    is named by the element's address, see [wl_listener]. *)
Record wlmtk_element_t : Type := {
  x : Z;
  y : Z;
  parent_container_ptr : option addr;
  impl_ptr : option wlmtk_element_impl_t;
  wlr_scene_node_ptr : option addr;
  visible : bool;
  last_pointer_x : double;
  last_pointer_y : double;
  last_pointer_time_msec : Z;
}.

(** [wlmtk_element_pointer_button] (element.h, static inline). *)
Definition wlmtk_element_pointer_button
    (element_ptr : addr) (element : wlmtk_element_t)
    (button_event_ptr : wlmtk_button_event_t) (w : world)
    : outcome (bool * world) :=
  impl ← deref (impl_ptr element);
  match pointer_button impl with
  | None => Return (false, w)
  | Some method => Return (method element_ptr button_event_ptr w)
  end.

(** [wlmtk_element_destroy] (element.h, static inline). *)
Definition wlmtk_element_destroy
    (element_ptr : addr) (element : wlmtk_element_t) (w : world)
    : outcome world :=
  impl ← deref (impl_ptr element);
  Return (destroy impl element_ptr w).

End Methods.

Arguments wlmtk_element_impl_t world : clear implicits.
Arguments wlmtk_element_t world : clear implicits.

(** *** The scene graph, as far as attaching an element goes *)

(** The host's scene graph: the live nodes, each with the tree it hangs
    under, and the subscriptions to the nodes' destroy signals. *)
Record wlr_scene : Type := {
  nodes : gmap addr addr;
  listeners : wl_subscriptions;
}.

(** Modelled from the spec: the container (container.h is not part of the
    sources), of which attaching an element reads one thing, its "scene_tree:
    own external scene-node grouping children's nodes". The container is
    attached to a live scene root when it has one. *)
Record wlmtk_container_t : Type := {
  wlr_scene_tree_ptr : option addr;
}.

(** The scene tree of the element's parent, if the element has a parent and
    the parent is attached. *)
Definition parent_wlr_scene_tree
    (containers : gmap addr wlmtk_container_t)
    (element : wlmtk_element_t wlr_scene) : option addr :=
  container_ptr ← parent_container_ptr element;
  container ← containers !! container_ptr;
  wlr_scene_tree_ptr container.

(** Step 1 of the attachment algorithm: "should_be_attached = E.visible AND
    E.parent is attached to a live scene root". *)
Definition should_be_attached
    (containers : gmap addr wlmtk_container_t)
    (element : wlmtk_element_t wlr_scene) : option addr :=
  if visible element then parent_wlr_scene_tree containers element else None.

Definition set_wlr_scene_node_ptr
    (element : wlmtk_element_t wlr_scene) (node : option addr)
    : wlmtk_element_t wlr_scene :=
  {| x := x element; y := y element;
     parent_container_ptr := parent_container_ptr element;
     impl_ptr := impl_ptr element;
     wlr_scene_node_ptr := node;
     visible := visible element;
     last_pointer_x := last_pointer_x element;
     last_pointer_y := last_pointer_y element;
     last_pointer_time_msec := last_pointer_time_msec element |}.

(** [wlr_scene_node_reparent(node, tree)]. *)
Definition wlr_scene_node_reparent (node tree : addr) (g : wlr_scene)
    : wlr_scene :=
  {| nodes := <[node := tree]> (nodes g); listeners := listeners g |}.

Definition set_listeners (g : wlr_scene) (subs : wl_subscriptions)
    : wlr_scene :=
  {| nodes := nodes g; listeners := subs |}.

(** Modelled from the spec: steps 2 to 4 of the scene attachment algorithm,
    for an element that should hang under [target], or under nothing:
    - 2: should be attached, no node: "invoke capability create_scene_node
      (parent_scene_tree); store the returned handle; subscribe to its
      external destroy notification";
    - 3: should be attached, node exists "but its external parent differs
      from the current required parent: re-parent the existing node";
    - 4: should not be attached, node present: "this core only drops the
      local handle and unsubscribes". *)
Definition attach_to (target : option addr)
    (element_ptr : addr) (element : wlmtk_element_t wlr_scene)
    (g : wlr_scene) : outcome (wlmtk_element_t wlr_scene * wlr_scene) :=
  match target with
  | Some tree =>
      match wlr_scene_node_ptr element with
      | None =>
          impl ← deref (impl_ptr element);
          let '(node, g') := create_scene_node impl element_ptr tree g in
          Return (set_wlr_scene_node_ptr element (Some node),
                  set_listeners g'
                    (wl_signal_add (events_destroy node)
                       (wlr_scene_node_destroy_listener_of element_ptr)
                       (listeners g')))
      | Some node =>
          if decide (nodes g !! node = Some tree)
          then Return (element, g)
          else Return (element, wlr_scene_node_reparent node tree g)
      end
  | None =>
      match wlr_scene_node_ptr element with
      | Some node =>
          Return (set_wlr_scene_node_ptr element None,
                  set_listeners g
                    (wl_list_remove
                       (wlr_scene_node_destroy_listener_of element_ptr)
                       (listeners g)))
      | None => Return (element, g)
      end
  end.

(** Modelled from the spec: [wlmtk_element_attach_to_scene_graph] is declared
    in element.h and defined in element.c, which is not part of the sources.
    The spec's algorithm: step 1 decides where the element should hang, steps
    2 to 4 bring the element there. *)
Definition wlmtk_element_attach_to_scene_graph
    (containers : gmap addr wlmtk_container_t)
    (element_ptr : addr) (element : wlmtk_element_t wlr_scene)
    (g : wlr_scene) : outcome (wlmtk_element_t wlr_scene * wlr_scene) :=
  attach_to (should_be_attached containers element) element_ptr element g.

(** The comment of the declaration in element.h states the condition with no
    word on visibility: "If the element has a parent, and that parent is
    itself attached to the wlroots scene tree, this will either re-parent an
    already existing node, or invoke wlmtk_element_impl_t::create_scene_node
    [...]. Otherwise, it will clear any existing node." The same steps under
    that condition. *)
Definition attach_to_parent_tree
    (containers : gmap addr wlmtk_container_t)
    (element_ptr : addr) (element : wlmtk_element_t wlr_scene)
    (g : wlr_scene) : outcome (wlmtk_element_t wlr_scene * wlr_scene) :=
  attach_to (parent_wlr_scene_tree containers element) element_ptr element g.

(** The contract of [create_scene_node] in element.h: "Creates element's
    scene graph API node, child to wlr_scene_tree_ptr". *)
Definition creates_child_of_tree (impl : wlmtk_element_impl_t wlr_scene)
    : Prop :=
  forall element_ptr tree g,
    nodes (create_scene_node impl element_ptr tree g).2
      !! (create_scene_node impl element_ptr tree g).1 = Some tree.

(** A [create_scene_node] for examples: the node gets the first address the
    scene graph does not use. *)
Definition fresh_node (g : wlr_scene) : addr :=
  fresh (dom (nodes g)).

Definition example_create_scene_node
    (element_ptr tree : addr) (g : wlr_scene) : addr * wlr_scene :=
  (fresh_node g, wlr_scene_node_reparent (fresh_node g) tree g).

Definition example_impl : wlmtk_element_impl_t wlr_scene :=
  {| destroy := fun _ g => g;
     create_scene_node := example_create_scene_node;
     get_dimensions := fun _ _ => (0, 0, 0, 0);
     get_pointer_area := fun _ _ => (0, 0, 0, 0);
     pointer_motion := fun _ _ _ _ g => (false, g);
     pointer_button := None;
     pointer_leave := None |}.

(** The same, with a [pointer_button] that consumes button-down events and
    re-parents node 11 under tree 10 to show that it was called. *)
Definition example_button_impl : wlmtk_element_impl_t wlr_scene :=
  {| destroy := destroy example_impl;
     create_scene_node := create_scene_node example_impl;
     get_dimensions := get_dimensions example_impl;
     get_pointer_area := get_pointer_area example_impl;
     pointer_motion := pointer_motion example_impl;
     pointer_button :=
       Some (fun _ event g =>
               (bool_decide (type event = WLMTK_BUTTON_DOWN),
                wlr_scene_node_reparent 11%N 10%N g));
     pointer_leave := None |}.

Definition example_element (parent : option addr) (node : option addr)
    (is_visible : bool) : wlmtk_element_t wlr_scene :=
  {| x := 0; y := 0;
     parent_container_ptr := parent;
     impl_ptr := Some example_impl;
     wlr_scene_node_ptr := node;
     visible := is_visible;
     last_pointer_x := NAN; last_pointer_y := NAN;
     last_pointer_time_msec := 0 |}.

Definition example_button_element : wlmtk_element_t wlr_scene :=
  {| x := 0; y := 0; parent_container_ptr := None;
     impl_ptr := Some example_button_impl;
     wlr_scene_node_ptr := None; visible := true;
     last_pointer_x := NAN; last_pointer_y := NAN;
     last_pointer_time_msec := 0 |}.

Definition example_containers : gmap addr wlmtk_container_t :=
  {[ 1%N := {| wlr_scene_tree_ptr := Some 10%N |};
     2%N := {| wlr_scene_tree_ptr := None |} ]}.

Definition example_scene : wlr_scene :=
  {| nodes := {[ 10%N := 0%N ]}; listeners := [] |}.

End Element.

(** ** The host: wlroots, as surface.c sees it *)

(** [struct wlr_box]. *)
Module wlr_box.
Record t : Type := {
  x : Z;
  y : Z;
  width : Z;
  height : Z;
}.
End wlr_box.

Module Surface.

(** [struct wlr_surface_state], of which surface.c reads the size. *)
Record wlr_surface_state : Type := {
  width : Z;
  height : Z;
}.

(** [struct wlr_surface], by what surface.c asks of one: its [current]
    state, the box [wlr_surface_get_extends] writes, and the surface
    [wlr_surface_get_root_surface] returns. *)
Record wlr_surface : Type := {
  current : wlr_surface_state;
  extends : wlr_box.t;
  root_surface : addr;
}.

Inductive wlr_scene_node_type : Type :=
| WLR_SCENE_NODE_TREE
| WLR_SCENE_NODE_RECT
| WLR_SCENE_NODE_BUFFER.

#[global] Instance wlr_scene_node_type_eq_dec : EqDecision wlr_scene_node_type.
Proof. solve_decision. Defined.

(** The scene graph, by the queries surface.c makes:
    - [wlr_scene_node_coords(node, &lx, &ly)]: [None] when it returns false;
    - [wlr_scene_node_at(node, lx, ly, &nx, &ny)]: the node found, with the
      node-local coordinates it writes, [None] for NULL;
    - [node->type];
    - [wlr_scene_surface_try_from_buffer(wlr_scene_buffer_from_node(node))]:
      the [surface] member of the scene surface, [None] for NULL. *)
Record wlr_scene : Type := {
  wlr_scene_node_coords : addr -> option (Z * Z);
  wlr_scene_node_at : addr -> double -> double -> option (addr * double * double);
  wlr_scene_node_type_of : addr -> wlr_scene_node_type;
  wlr_scene_surface_try_from_buffer : addr -> option addr;
}.

Inductive wlr_button_state : Type :=
| WLR_BUTTON_RELEASED
| WLR_BUTTON_PRESSED.

(** What the toolkit asks of the seat. *)
Inductive wlr_seat_request : Type :=
| pointer_clear_focus
| pointer_notify_enter (surface : addr) (sx sy : double)
| pointer_notify_motion (time_msec : Z) (sx sy : double)
| pointer_notify_button (time_msec : Z) (button : Z) (state : wlr_button_state).

(** [struct wlr_seat]: [pointer_state.focused_surface], and the requests
    made of the seat so far, oldest first. *)
Record wlr_seat : Type := {
  focused_surface : option addr;
  requests : list wlr_seat_request;
}.

(** [wlr_seat_pointer_clear_focus(seat)]. *)
Definition wlr_seat_pointer_clear_focus (seat : wlr_seat) : wlr_seat :=
  {| focused_surface := None;
     requests := requests seat ++ [pointer_clear_focus] |}.

(** [wlr_seat_pointer_notify_enter(seat, surface, sx, sy)]: with the seat's
    default pointer grab the surface becomes the focused one. *)
Definition wlr_seat_pointer_notify_enter (seat : wlr_seat)
    (surface : addr) (sx sy : double) : wlr_seat :=
  {| focused_surface := Some surface;
     requests := requests seat ++ [pointer_notify_enter surface sx sy] |}.

(** [wlr_seat_pointer_notify_motion(seat, time_msec, sx, sy)]. *)
Definition wlr_seat_pointer_notify_motion (seat : wlr_seat)
    (time_msec : Z) (sx sy : double) : wlr_seat :=
  {| focused_surface := focused_surface seat;
     requests := requests seat ++ [pointer_notify_motion time_msec sx sy] |}.

(** [wlr_seat_pointer_notify_button(seat, time_msec, button, state)]. *)
Definition wlr_seat_pointer_notify_button (seat : wlr_seat)
    (time_msec : Z) (button : Z) (state : wlr_button_state) : wlr_seat :=
  {| focused_surface := focused_surface seat;
     requests :=
       requests seat ++ [pointer_notify_button time_msec button state] |}.

(** The state of the host. *)
Record wlr_host : Type := {
  surfaces : addr -> wlr_surface;
  scene : wlr_scene;
  seat : wlr_seat;
  subscriptions : wl_subscriptions;
}.

Definition set_seat (h : wlr_host) (new_seat : wlr_seat) : wlr_host :=
  {| surfaces := surfaces h; scene := scene h; seat := new_seat;
     subscriptions := subscriptions h |}.

Definition set_subscriptions (h : wlr_host) (subs : wl_subscriptions)
    : wlr_host :=
  {| surfaces := surfaces h; scene := scene h; seat := seat h;
     subscriptions := subs |}.

(** [wlmtk_env_wlr_seat(env_ptr)]. env.h is not part of the sources; the
    host has one seat, and every environment hands out that one. *)
Definition wlmtk_env_wlr_seat (env_ptr : option addr) (h : wlr_host)
    : wlr_seat :=
  seat h.

(** [wlr_surface_get_root_surface(wlr_surface_ptr)]. *)
Definition wlr_surface_get_root_surface (h : wlr_host)
    (wlr_surface_ptr : addr) : addr :=
  root_surface (surfaces h wlr_surface_ptr).

(** [wlr_surface_get_extends(wlr_surface_ptr, &box)]; it reads through the
    pointer. *)
Definition wlr_surface_get_extends (h : wlr_host)
    (wlr_surface_ptr : option addr) : outcome wlr_box.t :=
  surface ← deref wlr_surface_ptr;
  Return (extends (surfaces h surface)).

(** ** The element, as surface.c uses it

    surface.c is written against a later element.h than the one in the
    sources: the element is initialised with an environment, and a derived
    class replaces methods of the element with [wlmtk_element_extend], which
    hands back the table it replaced. The data members are those of
    element.h, with [env_ptr] in the place of [impl_ptr]. *)

Record wlmtk_element_t : Type := {
  x : Z;
  y : Z;
  parent_container_ptr : option addr;
  env_ptr : option addr;
  wlr_scene_node_ptr : option addr;
  visible : bool;
  last_pointer_x : double;
  last_pointer_y : double;
  last_pointer_time_msec : Z;
}.

(** [wlmtk_element_vmt_t], by the one entry surface.c calls of the table
    the element had before the surface extended it. A method of the base
    class sees the element, and nothing of the surface around it. *)
Record wlmtk_element_vmt_t : Type := {
  pointer_motion :
    option (wlmtk_element_t -> double -> double -> Z -> bool * wlmtk_element_t);
}.

(** Implementations of [wlmtk_surface_vmt_t::request_size]. The one in
    surface.c is the fake surface's. *)
Inductive request_size_impl : Type :=
| _wlmtk_fake_surface_request_size_impl.

(** [wlmtk_surface_vmt_t]. *)
Record wlmtk_surface_vmt_t : Type := {
  request_size : option request_size_impl;
}.

(** Handlers a listener of surface.c is connected with. *)
Inductive wl_notify_func_t : Type :=
| handle_surface_commit_func.

(** [struct wl_listener] as a member: its [notify]. Its [link] is the
    host's business, see [wl_subscriptions]. *)
Record wl_listener_t : Type := {
  notify : option wl_notify_func_t;
}.

(** [wlmtk_surface_t] (surface.h is not part of the sources: the members
    are the ones surface.c names). *)
Record wlmtk_surface_t : Type := {
  super_element : wlmtk_element_t;
  orig_super_element_vmt : wlmtk_element_vmt_t;
  vmt : wlmtk_surface_vmt_t;
  wlr_surface_ptr : option addr;
  surface_commit_listener : wl_listener_t;
  committed_width : Z;
  committed_height : Z;
}.

(** [wlmtk_fake_surface_t] (surface.h). *)
Record wlmtk_fake_surface_t : Type := {
  surface : wlmtk_surface_t;
  serial : Z;
  requested_width : Z;
  requested_height : Z;
}.

(** What [memset(ptr, 0, sizeof(...))] leaves. *)
Definition zero_element : wlmtk_element_t :=
  {| x := 0; y := 0; parent_container_ptr := None; env_ptr := None;
     wlr_scene_node_ptr := None; visible := false;
     last_pointer_x := 0%float; last_pointer_y := 0%float;
     last_pointer_time_msec := 0 |}.

Definition zero_surface : wlmtk_surface_t :=
  {| super_element := zero_element;
     orig_super_element_vmt := {| pointer_motion := None |};
     vmt := {| request_size := None |};
     wlr_surface_ptr := None;
     surface_commit_listener := {| notify := None |};
     committed_width := 0;
     committed_height := 0 |}.

Definition zero_fake_surface : wlmtk_fake_surface_t :=
  {| surface := zero_surface; serial := 0;
     requested_width := 0; requested_height := 0 |}.

Definition set_super_element (s : wlmtk_surface_t) (e : wlmtk_element_t)
    : wlmtk_surface_t :=
  {| super_element := e;
     orig_super_element_vmt := orig_super_element_vmt s;
     vmt := vmt s;
     wlr_surface_ptr := wlr_surface_ptr s;
     surface_commit_listener := surface_commit_listener s;
     committed_width := committed_width s;
     committed_height := committed_height s |}.

Definition set_orig_super_element_vmt (s : wlmtk_surface_t)
    (table : wlmtk_element_vmt_t) : wlmtk_surface_t :=
  {| super_element := super_element s;
     orig_super_element_vmt := table;
     vmt := vmt s;
     wlr_surface_ptr := wlr_surface_ptr s;
     surface_commit_listener := surface_commit_listener s;
     committed_width := committed_width s;
     committed_height := committed_height s |}.

Definition set_vmt (s : wlmtk_surface_t) (table : wlmtk_surface_vmt_t)
    : wlmtk_surface_t :=
  {| super_element := super_element s;
     orig_super_element_vmt := orig_super_element_vmt s;
     vmt := table;
     wlr_surface_ptr := wlr_surface_ptr s;
     surface_commit_listener := surface_commit_listener s;
     committed_width := committed_width s;
     committed_height := committed_height s |}.

Definition set_wlr_surface_ptr (s : wlmtk_surface_t) (ptr : option addr)
    : wlmtk_surface_t :=
  {| super_element := super_element s;
     orig_super_element_vmt := orig_super_element_vmt s;
     vmt := vmt s;
     wlr_surface_ptr := ptr;
     surface_commit_listener := surface_commit_listener s;
     committed_width := committed_width s;
     committed_height := committed_height s |}.

Definition set_surface_commit_listener (s : wlmtk_surface_t)
    (listener : wl_listener_t) : wlmtk_surface_t :=
  {| super_element := super_element s;
     orig_super_element_vmt := orig_super_element_vmt s;
     vmt := vmt s;
     wlr_surface_ptr := wlr_surface_ptr s;
     surface_commit_listener := listener;
     committed_width := committed_width s;
     committed_height := committed_height s |}.

Definition set_committed (s : wlmtk_surface_t) (w h : Z) : wlmtk_surface_t :=
  {| super_element := super_element s;
     orig_super_element_vmt := orig_super_element_vmt s;
     vmt := vmt s;
     wlr_surface_ptr := wlr_surface_ptr s;
     surface_commit_listener := surface_commit_listener s;
     committed_width := w;
     committed_height := h |}.

(** What surface.c calls of element.c, which is not part of the sources:
    - [wlmtk_element_init(element_ptr, env_ptr)], with its result;
    - [wlmtk_element_extend(element_ptr, &surface_element_vmt)], with the
      table it returns;
    - [wlmtk_element_fini(element_ptr)], which may reach into the host
      (the element's destroy listener is subscribed there). *)
Class ElementBase : Type := {
  wlmtk_element_init :
    wlmtk_element_t -> option addr -> bool * wlmtk_element_t;
  wlmtk_element_extend :
    wlmtk_element_t -> wlmtk_element_vmt_t * wlmtk_element_t;
  wlmtk_element_fini :
    addr -> wlmtk_element_t -> wlr_host -> wlmtk_element_t * wlr_host;
}.

(** ** surface.c *)

(** [wlmtk_surface_element]: the element is a member of the surface, and is
    named by the surface's address ([BS_CONTAINER_OF] the other way). *)
Definition wlmtk_surface_element (surface_ptr : addr) : addr := surface_ptr.

(** [wlmtk_util_connect_listener_signal(signal, listener, handler)] (util.c
    is not part of the sources): sets the listener's [notify] and adds the
    listener to the signal. *)
Definition wlmtk_util_connect_listener_signal
    (signal : wl_signal) (listener : wl_listener) (handler : wl_notify_func_t)
    (subs : wl_subscriptions) : wl_listener_t * wl_subscriptions :=
  ({| notify := Some handler |}, wl_signal_add signal listener subs).

Section Exported.

Context `{ElementBase}.

(** [wlmtk_surface_fini]. *)
Definition wlmtk_surface_fini (surface_ptr : addr)
    (surface : wlmtk_surface_t) (h : wlr_host) : wlmtk_surface_t * wlr_host :=
  let '(surface, h) :=
    match wlr_surface_ptr surface with
    | Some _ =>
        (set_wlr_surface_ptr surface None,
         set_subscriptions h
           (wl_list_remove (surface_commit_listener_of surface_ptr)
              (subscriptions h)))
    | None => (surface, h)
    end in
  let '(_, h) :=
    wlmtk_element_fini (wlmtk_surface_element surface_ptr)
      (super_element surface) h in
  (zero_surface, h).

(** [wlmtk_surface_init]. [surface_ptr] is an address, so the assertion
    [NULL != surface_ptr] holds. *)
Definition wlmtk_surface_init (surface_ptr : addr)
    (wlr_surface_ptr : option addr) (env_ptr : option addr) (h : wlr_host)
    : bool * wlmtk_surface_t * wlr_host :=
  let surface := zero_surface in
  let '(ok, element) := wlmtk_element_init (super_element surface) env_ptr in
  let surface := set_super_element surface element in
  if negb ok then
    let '(surface, h) := wlmtk_surface_fini surface_ptr surface h in
    (false, surface, h)
  else
    let '(orig_vmt, element) := wlmtk_element_extend (super_element surface) in
    let surface :=
      set_orig_super_element_vmt (set_super_element surface element) orig_vmt in
    let surface := set_wlr_surface_ptr surface wlr_surface_ptr in
    match wlr_surface_ptr with
    | Some backing =>
        let '(listener, subs) :=
          wlmtk_util_connect_listener_signal
            (events_commit backing)
            (surface_commit_listener_of surface_ptr)
            handle_surface_commit_func
            (subscriptions h) in
        (true, set_surface_commit_listener surface listener,
         set_subscriptions h subs)
    | None => (true, surface, h)
    end.

End Exported.

(** [wlmtk_surface_extend]. *)
Definition wlmtk_surface_extend (surface : wlmtk_surface_t)
    (surface_vmt_ptr : wlmtk_surface_vmt_t)
    : wlmtk_surface_vmt_t * wlmtk_surface_t :=
  let orig_vmt := vmt surface in
  let surface :=
    match request_size surface_vmt_ptr with
    | Some method => set_vmt surface {| request_size := Some method |}
    | None => surface
    end in
  (orig_vmt, surface).

(** [wlmtk_surface_get_size]. *)
Definition wlmtk_surface_get_size (surface : wlmtk_surface_t)
    (width_ptr height_ptr : option Z) : option Z * option Z :=
  (store_if_not_null width_ptr (committed_width surface),
   store_if_not_null height_ptr (committed_height surface)).

(** [_wlmtk_surface_element_get_dimensions]: the four output cells after
    the call. *)
Definition _wlmtk_surface_element_get_dimensions
    (surface : wlmtk_surface_t) (h : wlr_host)
    (left_ptr top_ptr right_ptr bottom_ptr : option Z)
    : outcome (option Z * option Z * option Z * option Z) :=
  box ← wlr_surface_get_extends h (wlr_surface_ptr surface);
  Return (store_if_not_null left_ptr (wlr_box.x box),
          store_if_not_null top_ptr (wlr_box.y box),
          store_if_not_null right_ptr (wlr_box.width box),
          store_if_not_null bottom_ptr (wlr_box.height box)).

(** [_wlmtk_surface_element_get_pointer_area]. *)
Definition _wlmtk_surface_element_get_pointer_area
    (surface : wlmtk_surface_t) (h : wlr_host)
    (left_ptr top_ptr right_ptr bottom_ptr : option Z)
    : outcome (option Z * option Z * option Z * option Z) :=
  box ← wlr_surface_get_extends h (wlr_surface_ptr surface);
  Return (store_if_not_null left_ptr (wlr_box.x box),
          store_if_not_null top_ptr (wlr_box.y box),
          store_if_not_null right_ptr
            (int_sub (wlr_box.width box) (wlr_box.x box)),
          store_if_not_null bottom_ptr
            (int_sub (wlr_box.height box) (wlr_box.y box))).

(** [_wlmtk_surface_element_pointer_leave]. *)
Definition _wlmtk_surface_element_pointer_leave
    (surface : wlmtk_surface_t) (h : wlr_host) : wlr_host :=
  let focused_wlr_surface_ptr :=
    focused_surface
      (wlmtk_env_wlr_seat (env_ptr (super_element surface)) h) in
  match focused_wlr_surface_ptr with
  | Some focused =>
      if decide (Some (wlr_surface_get_root_surface h focused)
                 = wlr_surface_ptr surface)
      then
        set_seat h
          (wlr_seat_pointer_clear_focus
             (wlmtk_env_wlr_seat (env_ptr (super_element surface)) h))
      else h
  | None => h
  end.

(** [_wlmtk_surface_element_pointer_motion]. *)
Definition _wlmtk_surface_element_pointer_motion
    (surface : wlmtk_surface_t) (x y : double) (time_msec : Z) (h : wlr_host)
    : outcome (bool * wlmtk_surface_t * wlr_host) :=
  method ← deref (pointer_motion (orig_super_element_vmt surface));
  let '(_, element) := method (super_element surface) x y time_msec in
  let surface := set_super_element surface element in
  match wlr_scene_node_ptr (super_element surface) with
  | None => Return (false, surface, h)
  | Some node =>
      match wlr_scene_node_coords (scene h) node with
      | None => Return (false, surface, h)
      | Some (lx, ly) =>
          match
            wlr_scene_node_at (scene h) node
              (PrimFloat.add x (double_of_int lx))
              (PrimFloat.add y (double_of_int ly))
          with
          | None => Return (false, surface, h)
          | Some (wlr_scene_node_ptr, node_x, node_y) =>
              if decide (WLR_SCENE_NODE_BUFFER
                         <> wlr_scene_node_type_of (scene h) wlr_scene_node_ptr)
              then Return (false, surface, h)
              else
                match
                  wlr_scene_surface_try_from_buffer (scene h) wlr_scene_node_ptr
                with
                | None => Return (false, surface, h)
                | Some scene_surface =>
                    _ ← BS_ASSERT
                          (bool_decide
                             (wlr_surface_ptr surface
                              = Some (wlr_surface_get_root_surface h
                                        scene_surface)));
                    let env := env_ptr (super_element surface) in
                    let h :=
                      set_seat h
                        (wlr_seat_pointer_notify_enter
                           (wlmtk_env_wlr_seat env h)
                           scene_surface node_x node_y) in
                    let h :=
                      set_seat h
                        (wlr_seat_pointer_notify_motion
                           (wlmtk_env_wlr_seat env h)
                           time_msec node_x node_y) in
                    Return (true, surface, h)
                end
          end
      end
  end.

(** [_wlmtk_surface_element_pointer_button]. *)
Definition _wlmtk_surface_element_pointer_button
    (surface : wlmtk_surface_t) (button_event_ptr : wlmtk_button_event_t)
    (h : wlr_host) : outcome (bool * wlr_host) :=
  let focused_wlr_surface_ptr :=
    focused_surface
      (wlmtk_env_wlr_seat (env_ptr (super_element surface)) h) in
  match focused_wlr_surface_ptr with
  | None => Return (false, h)
  | Some focused =>
      _ ← BS_ASSERT
            (bool_decide
               (wlr_surface_ptr surface
                = Some (wlr_surface_get_root_surface h focused)));
      if bool_decide (WLMTK_BUTTON_DOWN = type button_event_ptr)
         || bool_decide (WLMTK_BUTTON_UP = type button_event_ptr)
      then
        Return
          (true,
           set_seat h
             (wlr_seat_pointer_notify_button
                (wlmtk_env_wlr_seat (env_ptr (super_element surface)) h)
                (time_msec button_event_ptr)
                (button button_event_ptr)
                (if bool_decide (type button_event_ptr = WLMTK_BUTTON_DOWN)
                 then WLR_BUTTON_PRESSED else WLR_BUTTON_RELEASED)))
      else Return (false, h)
  end.

(** [_wlmtk_surface_commit_size]. [serial = serial;] does nothing. *)
Definition _wlmtk_surface_commit_size (surface : wlmtk_surface_t)
    (serial : Z) (width height : Z) : wlmtk_surface_t :=
  set_committed surface width height.

(** [handle_surface_commit]: the surface is the one the listener is a
    member of; the handler reads through [wlr_surface_ptr]. *)
Definition handle_surface_commit (surface : wlmtk_surface_t) (h : wlr_host)
    : outcome wlmtk_surface_t :=
  backing ← deref (wlr_surface_ptr surface);
  Return
    (_wlmtk_surface_commit_size surface 0
       (width (current (surfaces h backing)))
       (height (current (surfaces h backing)))).

(** The host emits the commit signal of [wlr_surface_ptr], as
    [wl_signal_emit] does: if the surface's listener is one of the signal's,
    its [notify] is called. What the emission does to other listeners is not
    followed. *)
Definition wl_signal_emit_commit (wlr_surface_ptr : addr)
    (surface_ptr : addr) (surface : wlmtk_surface_t) (h : wlr_host)
    : outcome wlmtk_surface_t :=
  if decide (surface_commit_listener_of surface_ptr
             ∈ wl_signal_listeners (events_commit wlr_surface_ptr)
                 (subscriptions h))
  then
    handler ← deref (notify (surface_commit_listener surface));
    match handler with
    | handle_surface_commit_func => handle_surface_commit surface h
    end
  else Return surface.

(** *** The fake surface *)

Definition set_surface (f : wlmtk_fake_surface_t) (s : wlmtk_surface_t)
    : wlmtk_fake_surface_t :=
  {| surface := s; serial := serial f;
     requested_width := requested_width f;
     requested_height := requested_height f |}.

Definition set_serial (f : wlmtk_fake_surface_t) (new_serial : Z)
    : wlmtk_fake_surface_t :=
  {| surface := surface f; serial := new_serial;
     requested_width := requested_width f;
     requested_height := requested_height f |}.

(** [_wlmtk_fake_surface_request_size]. *)
Definition _wlmtk_fake_surface_request_size
    (fake_surface : wlmtk_fake_surface_t) (width height : Z)
    : Z * wlmtk_fake_surface_t :=
  (serial fake_surface,
   {| surface := surface fake_surface;
      serial := serial fake_surface;
      requested_width := width;
      requested_height := height |}).

(** [_wlmtk_fake_surface_vmt]. *)
Definition _wlmtk_fake_surface_vmt : wlmtk_surface_vmt_t :=
  {| request_size := Some _wlmtk_fake_surface_request_size_impl |}.

(** Modelled from the spec: [wlmtk_surface_request_size] is defined in
    surface.h, which is not part of the sources. "request_size(width,height)
    -> serial: asks the backing client region to resize; returns an opaque
    acknowledgment token"; the request goes through the surface's table of
    methods. The surface is given with the fake surface it is a member of,
    which is what the method in surface.c works on. *)
Definition wlmtk_surface_request_size
    (fake_surface : wlmtk_fake_surface_t) (width height : Z)
    : outcome (Z * wlmtk_fake_surface_t) :=
  method ← deref (request_size (vmt (surface fake_surface)));
  match method with
  | _wlmtk_fake_surface_request_size_impl =>
      Return (_wlmtk_fake_surface_request_size fake_surface width height)
  end.

(** [wlmtk_fake_surface_commit]. *)
Definition wlmtk_fake_surface_commit (fake_surface : wlmtk_fake_surface_t)
    : wlmtk_fake_surface_t :=
  set_surface fake_surface
    (_wlmtk_surface_commit_size (surface fake_surface)
       (serial fake_surface)
       (requested_width fake_surface)
       (requested_height fake_surface)).

Section Fake.

Context `{ElementBase}.

(** [wlmtk_fake_surface_create]. [fake_surface_ptr] is what [logged_calloc]
    returns: [None] when the allocation fails. *)
Definition wlmtk_fake_surface_create (fake_surface_ptr : option addr)
    (h : wlr_host) : option wlmtk_fake_surface_t * wlr_host :=
  match fake_surface_ptr with
  | None => (None, h)
  | Some ptr =>
      let fake_surface := zero_fake_surface in
      let '(_, surface, h) := wlmtk_surface_init ptr None None h in
      let fake_surface := set_surface fake_surface surface in
      let '(_, surface) :=
        wlmtk_surface_extend (Surface.surface fake_surface)
          _wlmtk_fake_surface_vmt in
      (Some (set_surface fake_surface surface), h)
  end.

(** [wlmtk_fake_surface_destroy]: what is left in the host. *)
Definition wlmtk_fake_surface_destroy (fake_surface_ptr : addr)
    (fake_surface : wlmtk_fake_surface_t) (h : wlr_host) : wlr_host :=
  (wlmtk_surface_fini fake_surface_ptr (surface fake_surface) h).2.

End Fake.

(** *** What the properties are stated with *)

(** The committed size, as [wlmtk_surface_get_size] reports it when both
    output pointers are given. *)
Definition committed_size (surface : wlmtk_surface_t) : option Z * option Z :=
  wlmtk_surface_get_size surface (Some 0) (Some 0).

(** The spec's "concrete drawable sub-region under the cursor", for an
    element with scene node [wlr_scene_node_ptr element] and a pointer at
    the node-local [(x, y)]: the hit test over the element's part of the
    scene graph finds a buffer node, and the buffer shows a surface. Given
    with the node-local coordinates of the hit. *)
Definition sub_surface_at (g : wlr_scene) (element : wlmtk_element_t)
    (x y : double) : option (addr * double * double) :=
  node ← wlr_scene_node_ptr element;
  '(lx, ly) ← wlr_scene_node_coords g node;
  '(hit, node_x, node_y) ←
    wlr_scene_node_at g node
      (PrimFloat.add x (double_of_int lx))
      (PrimFloat.add y (double_of_int ly));
  match wlr_scene_node_type_of g hit with
  | WLR_SCENE_NODE_BUFFER =>
      sub_surface ← wlr_scene_surface_try_from_buffer g hit;
      Some (sub_surface, node_x, node_y)
  | _ => None
  end.

(** The surface's listener is subscribed only while the surface points to a
    backing [wlr_surface]: what [wlmtk_surface_init] sets up, and what
    [wlmtk_surface_fini] relies on when it tests [wlr_surface_ptr]. *)
Definition subscribed_only_with_backing (surface_ptr : addr)
    (surface : wlmtk_surface_t) (h : wlr_host) : Prop :=
  wlr_surface_ptr surface = None ->
  forall signal,
    (signal, surface_commit_listener_of surface_ptr) ∉ subscriptions h.

(** Modelled from the spec: the contract of [wlmtk_element_fini] (element.c
    is not part of the sources) towards the host. It "releases any external
    destroy-notification subscription", and it subscribes nothing. *)
Definition element_fini_releases `{ElementBase} : Prop :=
  forall element_ptr element h,
    (forall signal,
       (signal, wlr_scene_node_destroy_listener_of element_ptr)
       ∉ subscriptions (wlmtk_element_fini element_ptr element h).2)
    /\ (forall sub,
          sub ∈ subscriptions (wlmtk_element_fini element_ptr element h).2 ->
          sub ∈ subscriptions h).

(** *** element.c, from the spec *)

Definition set_last_pointer (element : wlmtk_element_t)
    (px py : double) (time : Z) : wlmtk_element_t :=
  {| x := x element; y := y element;
     parent_container_ptr := parent_container_ptr element;
     env_ptr := env_ptr element;
     wlr_scene_node_ptr := wlr_scene_node_ptr element;
     visible := visible element;
     last_pointer_x := px; last_pointer_y := py;
     last_pointer_time_msec := time |}.

(** Modelled from the spec: [wlmtk_element_init] of element.c. It "installs
    the capability table, zeroes position, clears pointer-presence, does not
    touch parent", and it "fails only if preconditions on the passed table
    are violated"; surface.c passes an environment and no table. *)
Definition spec_element_init (element : wlmtk_element_t)
    (env : option addr) : bool * wlmtk_element_t :=
  (true,
   {| x := 0; y := 0;
      parent_container_ptr := parent_container_ptr element;
      env_ptr := env;
      wlr_scene_node_ptr := wlr_scene_node_ptr element;
      visible := visible element;
      last_pointer_x := NAN; last_pointer_y := NAN;
      last_pointer_time_msec := 0 |}).

(** Modelled from the spec: the [pointer_motion] of the base element, to
    which the surface "delegates for presence caching". The spec gives the
    base method no result of its own, and surface.c drops it. *)
Definition spec_element_pointer_motion (element : wlmtk_element_t)
    (px py : double) (time : Z) : bool * wlmtk_element_t :=
  (false, set_last_pointer element px py time).

(** Modelled from the spec: [wlmtk_element_extend] of element.c, as its
    sibling [wlmtk_surface_extend] does it: the table in place before the
    call is returned. *)
Definition spec_element_extend (element : wlmtk_element_t)
    : wlmtk_element_vmt_t * wlmtk_element_t :=
  ({| pointer_motion := Some spec_element_pointer_motion |}, element).

(** Modelled from the spec: [wlmtk_element_fini] of element.c. It "detaches
    from parent if still attached, releases any external destroy-notification
    subscription, clears the capability table reference". *)
Definition spec_element_fini (element_ptr : addr) (element : wlmtk_element_t)
    (h : wlr_host) : wlmtk_element_t * wlr_host :=
  ({| x := x element; y := y element;
      parent_container_ptr := None;
      env_ptr := env_ptr element;
      wlr_scene_node_ptr := wlr_scene_node_ptr element;
      visible := visible element;
      last_pointer_x := last_pointer_x element;
      last_pointer_y := last_pointer_y element;
      last_pointer_time_msec := last_pointer_time_msec element |},
   set_subscriptions h
     (wl_list_remove (wlr_scene_node_destroy_listener_of element_ptr)
        (subscriptions h))).

Definition element_c : ElementBase :=
  {| wlmtk_element_init := spec_element_init;
     wlmtk_element_extend := spec_element_extend;
     wlmtk_element_fini := spec_element_fini |}.

(** *** A host for examples

    Surface 7 is a toplevel with the sub-surface 8; surface 9 is another
    toplevel. Node 100 is the scene tree of surface 7, at layout position
    (30, 40); right of x = 50 the pointer is over node 101, the buffer of
    surface 8, and left of it over node 102, a rectangle. Node 200 is
    disabled. Node 300 is a tree with the buffer 301 of surface 9. *)

Definition example_surfaces (a : addr) : wlr_surface :=
  {| current := {| width := 640; height := 480 |};
     extends := {| wlr_box.x := -10; wlr_box.y := -20;
                   wlr_box.width := 660; wlr_box.height := 520 |};
     root_surface := if decide (a = 8%N) then 7%N else a |}.

Definition example_scene : wlr_scene :=
  {| wlr_scene_node_coords := fun node =>
       if decide (node = 200%N) then None else Some (30, 40);
     wlr_scene_node_at := fun node lx ly =>
       if decide (node = 100%N) then
         if PrimFloat.ltb 50%float lx
         then Some (101%N, PrimFloat.sub lx 50%float, ly)
         else Some (102%N, lx, ly)
       else if decide (node = 300%N) then Some (301%N, lx, ly)
       else None;
     wlr_scene_node_type_of := fun node =>
       if decide (node = 101%N) then WLR_SCENE_NODE_BUFFER
       else if decide (node = 301%N) then WLR_SCENE_NODE_BUFFER
       else if decide (node = 102%N) then WLR_SCENE_NODE_RECT
       else WLR_SCENE_NODE_TREE;
     wlr_scene_surface_try_from_buffer := fun node =>
       if decide (node = 101%N) then Some 8%N
       else if decide (node = 301%N) then Some 9%N
       else None |}.

Definition example_host (focus : option addr) : wlr_host :=
  {| surfaces := example_surfaces;
     scene := example_scene;
     seat := {| focused_surface := focus; requests := [] |};
     subscriptions := [] |}.

(** The surface at address 1, initialised for the backing surface 7 in the
    environment at address 50, and the host after the initialisation. *)
Definition example_init : bool * wlmtk_surface_t * wlr_host :=
  wlmtk_surface_init (H := element_c) 1%N (Some 7%N) (Some 50%N)
    (example_host None).

Definition example_surface : wlmtk_surface_t := example_init.1.2.

(** The same surface, attached to the scene graph with the given node. *)
Definition example_attached (node : addr) : wlmtk_surface_t :=
  set_super_element example_surface
    {| x := 0; y := 0; parent_container_ptr := None; env_ptr := Some 50%N;
       wlr_scene_node_ptr := Some node; visible := true;
       last_pointer_x := NAN; last_pointer_y := NAN;
       last_pointer_time_msec := 0 |}.

Definition example_button_event (t : wlmtk_button_event_type_t)
    : wlmtk_button_event_t :=
  {| button := 272; type := t; time_msec := 1000 |}.

(** What a pointer method returned and what it asked of the seat. *)
Definition seat_after {A : Type} (r : outcome (A * wlr_host))
    : outcome (A * wlr_seat) :=
  '(a, h) ← r; Return (a, seat h).

(** *** The surface in use

    What reaches a surface between [wlmtk_surface_init] and
    [wlmtk_surface_fini]: the pointer methods, called by the container the
    surface is in, and the commit signal of a [wlr_surface], emitted by the
    host; in between the host changes its surfaces, its scene graph and its
    seat. surface.c has no caller of its own for these, so the order is
    left open. *)

Inductive surface_event : Type :=
| host_changes (new_surfaces : addr -> wlr_surface) (new_scene : wlr_scene)
    (new_seat : wlr_seat)
| commit_emitted (wlr_surface_ptr : addr)
| pointer_moved (x y : double) (time_msec : Z)
| button_event (button_event_ptr : wlmtk_button_event_t)
| pointer_left.

(** One event, for the surface at [surface_ptr]. *)
Definition deliver (surface_ptr : addr) (event : surface_event)
    (state : wlmtk_surface_t * wlr_host)
    : outcome (wlmtk_surface_t * wlr_host) :=
  match event with
  | host_changes new_surfaces new_scene new_seat =>
      Return (state.1,
              {| surfaces := new_surfaces; scene := new_scene;
                 seat := new_seat;
                 subscriptions := subscriptions state.2 |})
  | commit_emitted wlr_surface_ptr =>
      surface ← wl_signal_emit_commit wlr_surface_ptr surface_ptr
                   state.1 state.2;
      Return (surface, state.2)
  | pointer_moved x y time_msec =>
      r ← _wlmtk_surface_element_pointer_motion state.1 x y time_msec state.2;
      Return (r.1.2, r.2)
  | button_event button_event_ptr =>
      r ← _wlmtk_surface_element_pointer_button state.1 button_event_ptr
             state.2;
      Return (state.1, r.2)
  | pointer_left =>
      Return (state.1, _wlmtk_surface_element_pointer_leave state.1 state.2)
  end.

(** The events one after the other; the first fault ends the program. *)
Fixpoint deliver_all (surface_ptr : addr) (events : list surface_event)
    (state : wlmtk_surface_t * wlr_host)
    : outcome (wlmtk_surface_t * wlr_host) :=
  match events with
  | [] => Return state
  | event :: rest =>
      state' ← deliver surface_ptr event state;
      deliver_all surface_ptr rest state'
  end.

(** An element.c whose [wlmtk_element_init] fails, to run the failure path
    of [wlmtk_surface_init]. *)
Definition failing_element_c : ElementBase :=
  {| wlmtk_element_init := fun element _ => (false, element);
     wlmtk_element_extend := spec_element_extend;
     wlmtk_element_fini := spec_element_fini |}.

(** A fake surface as [wlmtk_fake_surface_create] leaves it, with serial
    42. *)
Definition example_fake_surface : wlmtk_fake_surface_t :=
  {| surface := set_vmt zero_surface _wlmtk_fake_surface_vmt;
     serial := 42; requested_width := 0; requested_height := 0 |}.

(** Events for the surface of the examples: the seat's focus goes to the
    sub-surface 8, the pointer moves, a button goes down and up, surface 7
    commits, the pointer leaves. *)
Definition example_events : list surface_event :=
  [host_changes example_surfaces example_scene
     {| focused_surface := Some 8%N; requests := [] |};
   pointer_moved 25.5%float 3%float 77;
   button_event (example_button_event WLMTK_BUTTON_DOWN);
   button_event (example_button_event WLMTK_BUTTON_UP);
   commit_emitted 7%N;
   pointer_left].

(** *** Proof steps *)

(** Names what [wlmtk_element_fini] returns in the goal, with the contract
    [Hfini] of the base finaliser at that call. *)
Ltac destruct_element_fini Hfini Hreleased Hsubset :=
  match goal with
  | |- context [wlmtk_element_fini ?p ?e ?h1] =>
      let element' := fresh "element'" in
      let h2 := fresh "h2" in
      destruct (Hfini p e h1) as [Hreleased Hsubset];
      destruct (wlmtk_element_fini p e h1) as [element' h2];
      simpl in *
  end.

End Surface.

(** * Properties *)

(** ** The element *)

Module ElementProperties.

Import Element.

(** The example implementation keeps the contract of [create_scene_node]. *)
Lemma example_impl_creates_child : creates_child_of_tree example_impl.
Proof.
  intros element_ptr tree g. simpl.
  apply lookup_insert_eq.
Qed.

(** C7. For an element whose table of methods has no [pointer_button]
    entry, [wlmtk_element_pointer_button] returns false and leaves the state
    as it was; when the entry is there, it returns what the method returns.
    Neither case is an error. *)
Theorem wlmtk_element_pointer_button_optional
    {world : Type} (element_ptr : addr) (element : wlmtk_element_t world)
    (impl : wlmtk_element_impl_t world)
    (button_event_ptr : wlmtk_button_event_t) (w : world) :
  impl_ptr element = Some impl ->
  (pointer_button impl = None ->
   wlmtk_element_pointer_button element_ptr element button_event_ptr w
   = Return (false, w))
  /\ (forall method,
        pointer_button impl = Some method ->
        wlmtk_element_pointer_button element_ptr element button_event_ptr w
        = Return (method element_ptr button_event_ptr w)).
Proof.
  intros Himpl. unfold wlmtk_element_pointer_button.
  rewrite Himpl. simpl. split.
  - intros Hnone. now rewrite Hnone.
  - intros method Hsome. now rewrite Hsome.
Qed.

Lemma wlmtk_element_pointer_button_optional_witness :
  wlmtk_element_pointer_button 5%N (example_element None None true)
    {| button := 272; type := WLMTK_BUTTON_DOWN; time_msec := 7 |}
    example_scene
  = Return (false, example_scene)
  /\ wlmtk_element_pointer_button 5%N example_button_element
       {| button := 272; type := WLMTK_BUTTON_DOWN; time_msec := 7 |}
       example_scene
     = Return (true, wlr_scene_node_reparent 11%N 10%N example_scene).
Proof.
  split.
  - apply (wlmtk_element_pointer_button_optional 5%N
             (example_element None None true) example_impl
             {| button := 272; type := WLMTK_BUTTON_DOWN; time_msec := 7 |}
             example_scene eq_refl).
    reflexivity.
  - exact (proj2
             (wlmtk_element_pointer_button_optional 5%N
                example_button_element example_button_impl
                {| button := 272; type := WLMTK_BUTTON_DOWN; time_msec := 7 |}
                example_scene eq_refl)
             _ eq_refl).
Defined.

(** The four steps of the algorithm on the example scene: a visible element
    under the attached container 1 gets the fresh node 11 below the tree 10
    and subscribes to its destroy signal; an element with a node under
    another tree is re-parented; an element under the detached container 2,
    or an invisible one, loses its node and its subscription. *)
Example attach_creates_node :
  (fun r =>
     match r with
     | Return (e, g) =>
         Some (wlr_scene_node_ptr e, nodes g !! 11%N, listeners g)
     | Fault _ => None
     end)
    (wlmtk_element_attach_to_scene_graph example_containers 5%N
       (example_element (Some 1%N) None true) example_scene)
  = Some (Some 11%N, Some 10%N,
          [(events_destroy 11%N, wlr_scene_node_destroy_listener_of 5%N)]).
Proof. vm_compute. reflexivity. Qed.

Example attach_reparents_node :
  (fun r =>
     match r with
     | Return (e, g) => Some (wlr_scene_node_ptr e, nodes g !! 11%N)
     | Fault _ => None
     end)
    (wlmtk_element_attach_to_scene_graph example_containers 5%N
       (example_element (Some 1%N) (Some 11%N) true)
       {| nodes := {[ 10%N := 0%N; 11%N := 12%N ]}; listeners := [] |})
  = Some (Some 11%N, Some 10%N).
Proof. vm_compute. reflexivity. Qed.

Example attach_detached_parent_drops_node :
  (fun r =>
     match r with
     | Return (e, g) => Some (wlr_scene_node_ptr e, listeners g)
     | Fault _ => None
     end)
    (wlmtk_element_attach_to_scene_graph example_containers 5%N
       (example_element (Some 2%N) (Some 11%N) true)
       {| nodes := {[ 10%N := 0%N; 11%N := 10%N ]};
          listeners :=
            [(events_destroy 11%N, wlr_scene_node_destroy_listener_of 5%N)] |})
  = Some (None, []).
Proof. vm_compute. reflexivity. Qed.

Example attach_invisible_drops_node :
  (fun r =>
     match r with
     | Return (e, g) => Some (wlr_scene_node_ptr e)
     | Fault _ => None
     end)
    (wlmtk_element_attach_to_scene_graph example_containers 5%N
       (example_element (Some 1%N) (Some 11%N) false) example_scene)
  = Some None.
Proof. vm_compute. reflexivity. Qed.

(** Steps 2 to 4 bring the element where it should hang: afterwards it has
    a node exactly when it has a target, and the node hangs under the
    target. *)
Lemma attach_to_reaches_target target element_ptr element g element' g' :
  (forall impl, impl_ptr element = Some impl -> creates_child_of_tree impl) ->
  attach_to target element_ptr element g = Return (element', g') ->
  match target with
  | Some tree =>
      exists node,
        wlr_scene_node_ptr element' = Some node
        /\ nodes g' !! node = Some tree
  | None => wlr_scene_node_ptr element' = None
  end.
Proof.
  intros Hcreate. unfold attach_to.
  destruct target as [tree|].
  - destruct (wlr_scene_node_ptr element) as [node|] eqn:Hnode.
    + destruct (decide (nodes g !! node = Some tree)) as [Hparent|Hparent];
        intros [= <- <-]; exists node; split; try assumption.
      simpl. apply lookup_insert_eq.
    + destruct (impl_ptr element) as [impl|]; [|discriminate]. simpl.
      specialize (Hcreate impl eq_refl element_ptr tree g).
      destruct (create_scene_node impl element_ptr tree g) as [node g1].
      intros [= <- <-]. exists node. split; [reflexivity|exact Hcreate].
  - destruct (wlr_scene_node_ptr element) as [node|] eqn:Hnode;
      intros [= <- <-]; [reflexivity|exact Hnode].
Qed.

(** An element that is where it should hang is left alone. *)
Lemma attach_to_at_target target element_ptr element g :
  match target with
  | Some tree =>
      exists node,
        wlr_scene_node_ptr element = Some node
        /\ nodes g !! node = Some tree
  | None => wlr_scene_node_ptr element = None
  end ->
  attach_to target element_ptr element g = Return (element, g).
Proof.
  unfold attach_to. destruct target as [tree|].
  - intros (node & -> & Hparent). now rewrite decide_True.
  - now intros ->.
Qed.

(** Steps 2 to 4 keep what step 1 reads: visibility and parent. *)
Lemma attach_to_keeps_condition target element_ptr element g element' g' :
  attach_to target element_ptr element g = Return (element', g') ->
  visible element' = visible element
  /\ parent_container_ptr element' = parent_container_ptr element
  /\ impl_ptr element' = impl_ptr element.
Proof.
  unfold attach_to.
  destruct target as [tree|];
    destruct (wlr_scene_node_ptr element) as [node|];
    try (destruct (decide _));
    try (intros [= <- <-]; now repeat split).
  destruct (impl_ptr element) as [impl|] eqn:Himpl; [|discriminate]. simpl.
  destruct (create_scene_node impl element_ptr tree g) as [node g1].
  intros [= <- <-]. now repeat split.
Qed.

(** Steps 2 to 4 return when the element has its table of methods. *)
Lemma attach_to_returns target element_ptr element g :
  is_Some (impl_ptr element) ->
  exists element' g',
    attach_to target element_ptr element g = Return (element', g').
Proof.
  intros [impl Himpl]. unfold attach_to. rewrite Himpl. simpl.
  destruct target as [tree|];
    destruct (wlr_scene_node_ptr element) as [node|];
    try (destruct (decide _)); eauto.
  destruct (create_scene_node impl element_ptr tree g); eauto.
Qed.

(** The procedure the comment in element.h describes is idempotent as
    well. *)
Lemma attach_to_parent_tree_idempotent containers element_ptr element g
    element' g' :
  (forall impl, impl_ptr element = Some impl -> creates_child_of_tree impl) ->
  attach_to_parent_tree containers element_ptr element g
  = Return (element', g') ->
  attach_to_parent_tree containers element_ptr element' g'
  = Return (element', g').
Proof.
  unfold attach_to_parent_tree. intros Hcreate Hfirst.
  destruct (attach_to_keeps_condition _ _ _ _ _ _ Hfirst)
    as (_ & Hparent & _).
  unfold parent_wlr_scene_tree at 1. rewrite Hparent.
  apply attach_to_at_target.
  exact (attach_to_reaches_target _ _ _ _ _ _ Hcreate Hfirst).
Qed.

(** C2. Attaching an element to the scene graph twice in a row is attaching
    it once: the first call returns, and on the element and the scene graph
    it leaves the second call changes nothing (the node, the node's parent
    and the subscriptions stay). The element's [create_scene_node] is taken
    to keep its contract. *)
Theorem wlmtk_element_attach_to_scene_graph_idempotent
    (containers : gmap addr wlmtk_container_t) (element_ptr : addr)
    (element : wlmtk_element_t wlr_scene) (impl : wlmtk_element_impl_t wlr_scene)
    (g : wlr_scene) :
  impl_ptr element = Some impl ->
  creates_child_of_tree impl ->
  exists element' g',
    wlmtk_element_attach_to_scene_graph containers element_ptr element g
    = Return (element', g')
    /\ wlmtk_element_attach_to_scene_graph containers element_ptr element' g'
       = Return (element', g').
Proof.
  intros Himpl Hcreate. unfold wlmtk_element_attach_to_scene_graph.
  destruct (attach_to_returns (should_be_attached containers element)
              element_ptr element g) as (element' & g' & Hfirst);
    [now rewrite Himpl|].
  exists element', g'. split; [exact Hfirst|].
  destruct (attach_to_keeps_condition _ _ _ _ _ _ Hfirst)
    as (Hvisible & Hparent & _).
  assert (Hsame : should_be_attached containers element'
                  = should_be_attached containers element).
  { unfold should_be_attached, parent_wlr_scene_tree.
    now rewrite Hvisible, Hparent. }
  rewrite Hsame. apply attach_to_at_target.
  apply (attach_to_reaches_target _ _ _ _ _ _) with (2 := Hfirst).
  intros impl' Himpl'. now replace impl' with impl by congruence.
Qed.

Lemma wlmtk_element_attach_to_scene_graph_idempotent_witness :
  exists element' g',
    wlmtk_element_attach_to_scene_graph example_containers 5%N
      (example_element (Some 1%N) None true) example_scene
    = Return (element', g')
    /\ wlmtk_element_attach_to_scene_graph example_containers 5%N element' g'
       = Return (element', g').
Proof.
  apply (wlmtk_element_attach_to_scene_graph_idempotent example_containers
           5%N (example_element (Some 1%N) None true) example_impl
           example_scene eq_refl example_impl_creates_child).
Defined.

End ElementProperties.

(** ** The surface *)

Module SurfaceProperties.

Import Surface.

(** *** Integers *)

Lemma int_wrap_in_range z : int_range z -> int_wrap z = z.
Proof.
  unfold int_range, INT_MIN, INT_MAX, int_wrap. intros Hz.
  rewrite Z.mod_small; lia.
Qed.

(** On [int], subtracting [b] changes a value unless [b] is zero. *)
Lemma int_sub_fixed a b :
  int_range a -> int_range b -> (int_sub a b = a <-> b = 0).
Proof.
  unfold int_range, INT_MIN, INT_MAX, int_sub, int_wrap. intros Ha Hb.
  split.
  - intros Heq.
    assert (Hmod : (a - b + 2 ^ 31) mod 2 ^ 32 = a + 2 ^ 31) by lia.
    pose proof (Z.div_mod (a - b + 2 ^ 31) (2 ^ 32) ltac:(lia)) as Hdiv.
    rewrite Hmod in Hdiv.
    assert (Hq : (a - b + 2 ^ 31) / 2 ^ 32 = 0 \/ (a - b + 2 ^ 31) / 2 ^ 32 <> 0)
      by lia.
    lia.
  - intros ->. rewrite Z.sub_0_r, Z.mod_small; lia.
Qed.

(** *** The committed size *)

(** C4. The serial has no effect on what a commit leaves: committing a
    size with serial [s1] and with serial [s2] gives the same surface, and so
    does the fake surface's commit, whatever serial the fake surface holds;
    the handler of the backing surface's commit signal passes the constant
    0. A request on the fake surface hands out the serial the fake surface
    holds, and the commit that follows leaves the requested size whatever
    that serial is. *)
Theorem commit_ignores_serial
    (surface : wlmtk_surface_t) (fake_surface : wlmtk_fake_surface_t)
    (s1 s2 : Z) (w h : Z) :
  _wlmtk_surface_commit_size surface s1 w h
  = _wlmtk_surface_commit_size surface s2 w h
  /\ committed_size
       (Surface.surface (wlmtk_fake_surface_commit (set_serial fake_surface s1)))
     = committed_size
         (Surface.surface
            (wlmtk_fake_surface_commit (set_serial fake_surface s2)))
  /\ (forall host backing,
        wlr_surface_ptr surface = Some backing ->
        handle_surface_commit surface host
        = Return
            (_wlmtk_surface_commit_size surface s1
               (width (current (surfaces host backing)))
               (height (current (surfaces host backing)))))
  /\ (request_size (vmt (Surface.surface fake_surface))
      = Some _wlmtk_fake_surface_request_size_impl ->
      forall s,
      exists requested,
        wlmtk_surface_request_size (set_serial fake_surface s) w h
        = Return (s, requested)
        /\ committed_size
             (Surface.surface (wlmtk_fake_surface_commit requested))
           = (Some w, Some h)).
Proof.
  split; [reflexivity|]. split; [reflexivity|]. split.
  - intros host backing Hbacking. unfold handle_surface_commit.
    now rewrite Hbacking.
  - intros Hvmt s. unfold wlmtk_surface_request_size. simpl.
    rewrite Hvmt. simpl. eexists. split; reflexivity.
Qed.

(** *** Pointer events *)

(** C6. [pointer_leave] clears the seat's pointer focus when the focused
    surface is there and its root surface is this surface's backing surface;
    with no focused surface, or one with another root, the host is left as
    it was. *)
Theorem pointer_leave_clears_own_focus
    (surface : wlmtk_surface_t) (h : wlr_host) :
  (forall focused,
     focused_surface (seat h) = Some focused ->
     Some (wlr_surface_get_root_surface h focused) = wlr_surface_ptr surface ->
     _wlmtk_surface_element_pointer_leave surface h
     = set_seat h (wlr_seat_pointer_clear_focus (seat h))
     /\ focused_surface
          (seat (_wlmtk_surface_element_pointer_leave surface h)) = None)
  /\ (focused_surface (seat h) = None ->
      _wlmtk_surface_element_pointer_leave surface h = h)
  /\ (forall focused,
        focused_surface (seat h) = Some focused ->
        Some (wlr_surface_get_root_surface h focused) <> wlr_surface_ptr surface ->
        _wlmtk_surface_element_pointer_leave surface h = h).
Proof.
  unfold _wlmtk_surface_element_pointer_leave, wlmtk_env_wlr_seat.
  split; [|split].
  - intros focused -> Hroot. now rewrite decide_True.
  - now intros ->.
  - intros focused -> Hroot. now rewrite decide_False.
Qed.

(** C5. [pointer_button] with a focused surface on the seat asserts that
    the focused surface's root is this surface's backing surface: when it
    is, the call returns, and when it is not, the program ends on the failed
    assertion. With no focused surface the call returns false and the host
    is left as it was. *)
Theorem pointer_button_asserts_focus
    (surface : wlmtk_surface_t) (button_event_ptr : wlmtk_button_event_t)
    (h : wlr_host) :
  (focused_surface (seat h) = None ->
   _wlmtk_surface_element_pointer_button surface button_event_ptr h
   = Return (false, h))
  /\ (forall focused,
        focused_surface (seat h) = Some focused ->
        (wlr_surface_ptr surface
         = Some (wlr_surface_get_root_surface h focused) ->
         exists consumed h',
           _wlmtk_surface_element_pointer_button surface button_event_ptr h
           = Return (consumed, h'))
        /\ (wlr_surface_ptr surface
            <> Some (wlr_surface_get_root_surface h focused) ->
            _wlmtk_surface_element_pointer_button surface button_event_ptr h
            = Fault assertion_failed)).
Proof.
  unfold _wlmtk_surface_element_pointer_button, wlmtk_env_wlr_seat.
  split.
  - now intros ->.
  - intros focused ->. split; intros Hroot.
    + rewrite (bool_decide_eq_true_2 _ Hroot). simpl.
      destruct (bool_decide _ || bool_decide _); eauto.
    + now rewrite (bool_decide_eq_false_2 _ Hroot).
Qed.

(** Whether [pointer_button] made a request of the seat. *)
Lemma pointer_button_notified_or_not surface button_event_ptr h consumed h' :
  _wlmtk_surface_element_pointer_button surface button_event_ptr h
  = Return (consumed, h') ->
  (consumed = false /\ h' = h)
  \/ (consumed = true
      /\ (type button_event_ptr = WLMTK_BUTTON_DOWN
          \/ type button_event_ptr = WLMTK_BUTTON_UP)
      /\ h' = set_seat h
                (wlr_seat_pointer_notify_button (seat h)
                   (time_msec button_event_ptr) (button button_event_ptr)
                   (if bool_decide (type button_event_ptr = WLMTK_BUTTON_DOWN)
                    then WLR_BUTTON_PRESSED else WLR_BUTTON_RELEASED))).
Proof.
  unfold _wlmtk_surface_element_pointer_button, wlmtk_env_wlr_seat.
  destruct (focused_surface (seat h)) as [focused|].
  - destruct (bool_decide (wlr_surface_ptr surface = _)); simpl; [|discriminate].
    destruct (bool_decide (WLMTK_BUTTON_DOWN = _)) eqn:Hdown; simpl.
    + apply bool_decide_eq_true_1 in Hdown.
      intros [= <- <-]. right. auto.
    + destruct (bool_decide (WLMTK_BUTTON_UP = _)) eqn:Hup.
      * apply bool_decide_eq_true_1 in Hup.
        intros [= <- <-]. right. auto.
      * intros [= <- <-]. now left.
  - intros [= <- <-]. now left.
Qed.

(** C9. [pointer_button] forwards a button event to the seat only when its
    type is [WLMTK_BUTTON_DOWN] or [WLMTK_BUTTON_UP], as pressed and as
    released, and it returns true for those it forwards and no others: with
    the seat's focus on this surface, down and up events are forwarded and
    consumed, and an event of another type returns false with no request
    made of the seat; and whenever the call returns, it returns true only
    for a forwarded down or up event, and false only with the host left as
    it was. *)
Theorem pointer_button_forwards_down_and_up
    (surface : wlmtk_surface_t) (button_event_ptr : wlmtk_button_event_t)
    (h : wlr_host) :
  (forall focused,
     focused_surface (seat h) = Some focused ->
     wlr_surface_ptr surface = Some (wlr_surface_get_root_surface h focused) ->
     (type button_event_ptr = WLMTK_BUTTON_DOWN ->
      _wlmtk_surface_element_pointer_button surface button_event_ptr h
      = Return
          (true,
           set_seat h
             (wlr_seat_pointer_notify_button (seat h)
                (time_msec button_event_ptr) (button button_event_ptr)
                WLR_BUTTON_PRESSED)))
     /\ (type button_event_ptr = WLMTK_BUTTON_UP ->
         _wlmtk_surface_element_pointer_button surface button_event_ptr h
         = Return
             (true,
              set_seat h
                (wlr_seat_pointer_notify_button (seat h)
                   (time_msec button_event_ptr) (button button_event_ptr)
                   WLR_BUTTON_RELEASED)))
     /\ (type button_event_ptr <> WLMTK_BUTTON_DOWN ->
         type button_event_ptr <> WLMTK_BUTTON_UP ->
         _wlmtk_surface_element_pointer_button surface button_event_ptr h
         = Return (false, h)))
  /\ (forall consumed h',
        _wlmtk_surface_element_pointer_button surface button_event_ptr h
        = Return (consumed, h') ->
        (consumed = true ->
         (type button_event_ptr = WLMTK_BUTTON_DOWN
          \/ type button_event_ptr = WLMTK_BUTTON_UP)
         /\ h' = set_seat h
                   (wlr_seat_pointer_notify_button (seat h)
                      (time_msec button_event_ptr) (button button_event_ptr)
                      (if bool_decide
                            (type button_event_ptr = WLMTK_BUTTON_DOWN)
                       then WLR_BUTTON_PRESSED else WLR_BUTTON_RELEASED)))
        /\ (consumed = false -> h' = h)).
Proof.
  split.
  - intros focused Hfocus Hroot.
    unfold _wlmtk_surface_element_pointer_button, wlmtk_env_wlr_seat.
    rewrite Hfocus, (bool_decide_eq_true_2 _ Hroot). simpl.
    split; [|split].
    + now intros ->.
    + now intros ->.
    + intros Hdown Hup.
      rewrite !bool_decide_eq_false_2; [reflexivity|congruence..].
  - intros consumed h' Hcall.
    destruct (pointer_button_notified_or_not _ _ _ _ _ Hcall)
      as [[-> ->]|(-> & Htype & ->)].
    + split; [discriminate|reflexivity].
    + split; [|discriminate]. intros _. split; [exact Htype|reflexivity].
Qed.

(** The surface of the examples has the backing surface 7, with the
    sub-surface 8; surface 9 is not a part of it. *)
Example pointer_button_down_on_sub_surface :
  seat_after
    (_wlmtk_surface_element_pointer_button example_surface
       (example_button_event WLMTK_BUTTON_DOWN) (example_host (Some 8%N)))
  = Return
      (true,
       {| focused_surface := Some 8%N;
          requests := [pointer_notify_button 1000 272 WLR_BUTTON_PRESSED] |}).
Proof. reflexivity. Qed.

Example pointer_button_up_on_surface :
  seat_after
    (_wlmtk_surface_element_pointer_button example_surface
       (example_button_event WLMTK_BUTTON_UP) (example_host (Some 7%N)))
  = Return
      (true,
       {| focused_surface := Some 7%N;
          requests := [pointer_notify_button 1000 272 WLR_BUTTON_RELEASED] |}).
Proof. reflexivity. Qed.

Example pointer_button_click_not_forwarded :
  seat_after
    (_wlmtk_surface_element_pointer_button example_surface
       (example_button_event WLMTK_BUTTON_CLICK) (example_host (Some 7%N)))
  = Return (false, {| focused_surface := Some 7%N; requests := [] |}).
Proof. reflexivity. Qed.

Example pointer_button_double_click_not_forwarded :
  seat_after
    (_wlmtk_surface_element_pointer_button example_surface
       (example_button_event WLMTK_BUTTON_DOUBLE_CLICK)
       (example_host (Some 8%N)))
  = Return (false, {| focused_surface := Some 8%N; requests := [] |}).
Proof. reflexivity. Qed.

Example pointer_button_without_focus :
  seat_after
    (_wlmtk_surface_element_pointer_button example_surface
       (example_button_event WLMTK_BUTTON_DOWN) (example_host None))
  = Return (false, {| focused_surface := None; requests := [] |}).
Proof. reflexivity. Qed.

Example pointer_button_foreign_focus :
  _wlmtk_surface_element_pointer_button example_surface
    (example_button_event WLMTK_BUTTON_UP) (example_host (Some 9%N))
  = Fault assertion_failed.
Proof. reflexivity. Qed.

Example pointer_leave_own_sub_surface :
  seat (_wlmtk_surface_element_pointer_leave example_surface
          (example_host (Some 8%N)))
  = {| focused_surface := None; requests := [pointer_clear_focus] |}.
Proof. reflexivity. Qed.

Example pointer_leave_foreign_surface :
  _wlmtk_surface_element_pointer_leave example_surface
    (example_host (Some 9%N))
  = example_host (Some 9%N).
Proof. reflexivity. Qed.

(** *** Dimensions and pointer area *)

(** The extents of the examples' surfaces are the box (-10, -20, 660, 520).
    A NULL output pointer is skipped, and without a backing surface
    [wlr_surface_get_extends] reads through NULL. *)
Example get_dimensions_skips_null :
  _wlmtk_surface_element_get_dimensions example_surface (example_host None)
    (Some 1) None (Some 3) None
  = Return (Some (-10), None, Some 660, None).
Proof. reflexivity. Qed.

Example get_pointer_area_example :
  _wlmtk_surface_element_get_pointer_area example_surface (example_host None)
    (Some 1) (Some 2) (Some 3) (Some 4)
  = Return (Some (-10), Some (-20), Some 670, Some 540).
Proof. reflexivity. Qed.

Example get_dimensions_without_backing :
  _wlmtk_surface_element_get_dimensions zero_surface (example_host None)
    (Some 1) (Some 2) (Some 3) (Some 4)
  = Fault null_dereference.
Proof. reflexivity. Qed.

Example int_sub_wraps : int_sub INT_MAX (-1) = INT_MIN.
Proof. reflexivity. Qed.

(** C10. With all four output pointers given, [get_dimensions] writes the
    extents box as (x, y, width, height), and [get_pointer_area] writes
    (x, y, width - x, height - y), the differences taken on [int]. The two
    write the same four values exactly when the origin of the box is
    (0, 0). *)
Theorem dimensions_and_pointer_area
    (surface : wlmtk_surface_t) (h : wlr_host) (backing : addr)
    (l t r b : Z) :
  wlr_surface_ptr surface = Some backing ->
  let box := extends (surfaces h backing) in
  int_range (wlr_box.x box) -> int_range (wlr_box.y box) ->
  int_range (wlr_box.width box) -> int_range (wlr_box.height box) ->
  _wlmtk_surface_element_get_dimensions surface h
    (Some l) (Some t) (Some r) (Some b)
  = Return (Some (wlr_box.x box), Some (wlr_box.y box),
            Some (wlr_box.width box), Some (wlr_box.height box))
  /\ _wlmtk_surface_element_get_pointer_area surface h
       (Some l) (Some t) (Some r) (Some b)
     = Return (Some (wlr_box.x box), Some (wlr_box.y box),
               Some (int_sub (wlr_box.width box) (wlr_box.x box)),
               Some (int_sub (wlr_box.height box) (wlr_box.y box)))
  /\ (int_range (wlr_box.width box - wlr_box.x box) ->
      int_sub (wlr_box.width box) (wlr_box.x box)
      = wlr_box.width box - wlr_box.x box)
  /\ (int_range (wlr_box.height box - wlr_box.y box) ->
      int_sub (wlr_box.height box) (wlr_box.y box)
      = wlr_box.height box - wlr_box.y box)
  /\ (_wlmtk_surface_element_get_dimensions surface h
        (Some l) (Some t) (Some r) (Some b)
      = _wlmtk_surface_element_get_pointer_area surface h
          (Some l) (Some t) (Some r) (Some b)
      <-> wlr_box.x box = 0 /\ wlr_box.y box = 0).
Proof.
  intros Hbacking box Hx Hy Hw Hh.
  unfold _wlmtk_surface_element_get_dimensions,
    _wlmtk_surface_element_get_pointer_area, wlr_surface_get_extends.
  rewrite Hbacking. simpl. fold box.
  split; [reflexivity|]. split; [reflexivity|].
  split; [apply int_wrap_in_range|]. split; [apply int_wrap_in_range|].
  split.
  - intros [= Hright Hbottom]. symmetry in Hright, Hbottom.
    split; [now apply (int_sub_fixed (wlr_box.width box))
           |now apply (int_sub_fixed (wlr_box.height box))].
  - intros [Hx0 Hy0].
    assert (Hright : int_sub (wlr_box.width box) (wlr_box.x box)
                     = wlr_box.width box)
      by now apply int_sub_fixed.
    assert (Hbottom : int_sub (wlr_box.height box) (wlr_box.y box)
                      = wlr_box.height box)
      by now apply int_sub_fixed.
    now rewrite Hright, Hbottom.
Qed.

Lemma dimensions_and_pointer_area_witness :
  _wlmtk_surface_element_get_dimensions example_surface (example_host None)
    (Some 1) (Some 2) (Some 3) (Some 4)
  = Return (Some (-10), Some (-20), Some 660, Some 520)
  /\ _wlmtk_surface_element_get_pointer_area example_surface
       (example_host None) (Some 1) (Some 2) (Some 3) (Some 4)
     = Return (Some (-10), Some (-20), Some 670, Some 540).
Proof.
  pose proof
    (dimensions_and_pointer_area example_surface (example_host None) 7%N
       1 2 3 4 eq_refl) as Hclaim.
  simpl in Hclaim.
  assert (Hrange : forall z, -1000 <= z <= 1000 -> int_range z)
    by (unfold int_range, INT_MIN, INT_MAX; lia).
  destruct Hclaim as (Hdim & Harea & _); try (apply Hrange; lia).
  split; [exact Hdim|exact Harea].
Defined.

(** *** Signals *)

Lemma elem_of_wl_signal_add sub signal listener subs :
  sub ∈ wl_signal_add signal listener subs
  <-> sub ∈ subs \/ sub = (signal, listener).
Proof.
  unfold wl_signal_add. rewrite elem_of_app, list_elem_of_singleton.
  reflexivity.
Qed.

Lemma elem_of_wl_list_remove sub listener subs :
  sub ∈ wl_list_remove listener subs <-> sub.2 <> listener /\ sub ∈ subs.
Proof. unfold wl_list_remove. now rewrite list_elem_of_filter. Qed.

Lemma elem_of_wl_signal_listeners listener signal subs :
  listener ∈ wl_signal_listeners signal subs <-> (signal, listener) ∈ subs.
Proof.
  unfold wl_signal_listeners. rewrite list_elem_of_fmap. split.
  - intros ([sig l] & -> & Hin). apply list_elem_of_filter in Hin.
    destruct Hin as [Hsig Hin]. simpl in *. now subst.
  - intros Hin. exists (signal, listener). split; [reflexivity|].
    apply list_elem_of_filter. now split.
Qed.

(** A removed listener is a listener of no signal. *)
Lemma wl_list_remove_unsubscribes signal listener subs :
  (signal, listener) ∉ wl_list_remove listener subs.
Proof.
  rewrite elem_of_wl_list_remove. simpl. intros [Hne _]. now apply Hne.
Qed.

(** *** Size negotiation, initialisation and teardown *)

Section WithElementBase.

Context `{ElementBase}.

(** Whatever the base initialiser returns, the surface comes out of
    [wlmtk_surface_init] with the committed size (0, 0). *)
Lemma wlmtk_surface_init_committed_size surface_ptr backing env h :
  committed_size (wlmtk_surface_init surface_ptr backing env h).1.2
  = (Some 0, Some 0).
Proof.
  unfold wlmtk_surface_init.
  destruct (wlmtk_element_init _ env) as [[] element]; simpl.
  - destruct (wlmtk_element_extend _) as [orig_vmt element'].
    now destruct backing.
  - unfold wlmtk_surface_fini. simpl.
    now destruct (wlmtk_element_fini _ _ _).
Qed.

(** [wlmtk_surface_init] returns what [wlmtk_element_init] returns. *)
Lemma wlmtk_surface_init_result surface_ptr backing env h :
  (wlmtk_surface_init surface_ptr backing env h).1.1
  = (wlmtk_element_init zero_element env).1.
Proof.
  unfold wlmtk_surface_init. simpl.
  destruct (wlmtk_element_init _ env) as [[] element]; simpl.
  - destruct (wlmtk_element_extend _) as [orig_vmt element'].
    now destruct backing.
  - unfold wlmtk_surface_fini. simpl.
    now destruct (wlmtk_element_fini _ _ _).
Qed.

(** A surface initialised with a backing surface points to it, has the
    commit handler in its listener, and is subscribed to the backing
    surface's commit signal. *)
Lemma wlmtk_surface_init_connects surface_ptr backing env h :
  (wlmtk_element_init zero_element env).1 = true ->
  wlr_surface_ptr (wlmtk_surface_init surface_ptr (Some backing) env h).1.2
  = Some backing
  /\ notify
       (surface_commit_listener
          (wlmtk_surface_init surface_ptr (Some backing) env h).1.2)
     = Some handle_surface_commit_func
  /\ subscriptions (wlmtk_surface_init surface_ptr (Some backing) env h).2
     = wl_signal_add (events_commit backing)
         (surface_commit_listener_of surface_ptr) (subscriptions h).
Proof.
  unfold wlmtk_surface_init. simpl.
  destruct (wlmtk_element_init _ env) as [ok element]. simpl.
  intros ->. simpl.
  now destruct (wlmtk_element_extend _) as [orig_vmt element'].
Qed.

(** The fake surface comes out of [wlmtk_fake_surface_create] with the
    fake [request_size] and the committed size (0, 0). *)
Lemma wlmtk_fake_surface_create_spec ptr h :
  exists fake_surface,
    (wlmtk_fake_surface_create (Some ptr) h).1 = Some fake_surface
    /\ request_size (vmt (surface fake_surface))
       = Some _wlmtk_fake_surface_request_size_impl
    /\ committed_size (surface fake_surface) = (Some 0, Some 0).
Proof.
  unfold wlmtk_fake_surface_create.
  pose proof (wlmtk_surface_init_committed_size ptr None None h) as Hsize.
  destruct (wlmtk_surface_init ptr None None h) as [[ok s] h1].
  simpl in *. eexists. split; [reflexivity|]. split; [reflexivity|].
  exact Hsize.
Qed.

(** C1. With a base initialiser that succeeds:
    - [wlmtk_surface_init] succeeds with or without a backing surface, and
      leaves the committed size (0, 0);
    - [wlmtk_surface_request_size] on a fake surface returns the fake
      surface's serial and leaves the committed size as it was;
    - when the commit signal of the backing surface is emitted while the
      surface is subscribed, the committed size becomes the current width
      and height of the backing surface, and a fake commit makes it the
      requested size;
    - on a created fake surface with serial 42, [request_size (200, 100)]
      returns 42 with the size still (0, 0), and the size after the fake
      commit is (200, 100). *)
Theorem surface_size_negotiation :
  (forall element env, (wlmtk_element_init element env).1 = true) ->
  (forall surface_ptr backing env h,
     (wlmtk_surface_init surface_ptr backing env h).1.1 = true
     /\ committed_size (wlmtk_surface_init surface_ptr backing env h).1.2
        = (Some 0, Some 0))
  /\ (forall fake_surface w h,
        request_size (vmt (surface fake_surface))
        = Some _wlmtk_fake_surface_request_size_impl ->
        exists fake_surface',
          wlmtk_surface_request_size fake_surface w h
          = Return (serial fake_surface, fake_surface')
          /\ committed_size (surface fake_surface')
             = committed_size (surface fake_surface))
  /\ (forall surface_ptr backing env h0 h,
        (events_commit backing, surface_commit_listener_of surface_ptr)
        ∈ subscriptions h ->
        exists surface',
          wl_signal_emit_commit backing surface_ptr
            (wlmtk_surface_init surface_ptr (Some backing) env h0).1.2 h
          = Return surface'
          /\ committed_size surface'
             = (Some (width (current (surfaces h backing))),
                Some (height (current (surfaces h backing)))))
  /\ (forall fake_surface,
        committed_size (surface (wlmtk_fake_surface_commit fake_surface))
        = (Some (requested_width fake_surface),
           Some (requested_height fake_surface)))
  /\ (forall ptr h,
        exists fake_surface requested,
          (wlmtk_fake_surface_create (Some ptr) h).1 = Some fake_surface
          /\ wlmtk_surface_request_size (set_serial fake_surface 42) 200 100
             = Return (42, requested)
          /\ committed_size (surface requested) = (Some 0, Some 0)
          /\ committed_size (surface (wlmtk_fake_surface_commit requested))
             = (Some 200, Some 100)).
Proof.
  intros Hbase. split; [|split; [|split; [|split]]].
  - intros surface_ptr backing env h. split.
    + rewrite wlmtk_surface_init_result. apply Hbase.
    + apply wlmtk_surface_init_committed_size.
  - intros fake_surface w h Hvmt.
    unfold wlmtk_surface_request_size. rewrite Hvmt. simpl.
    eexists. split; reflexivity.
  - intros surface_ptr backing env h0 h Hsub. unfold wl_signal_emit_commit.
    rewrite decide_True by now apply elem_of_wl_signal_listeners.
    destruct (wlmtk_surface_init_connects surface_ptr backing env h0
                (Hbase _ _)) as (Hptr & Hnotify & _).
    rewrite Hnotify. simpl. unfold handle_surface_commit.
    rewrite Hptr. simpl. eexists. split; reflexivity.
  - reflexivity.
  - intros ptr h.
    destruct (wlmtk_fake_surface_create_spec ptr h)
      as (fake_surface & Hcreate & Hvmt & Hsize).
    exists fake_surface. eexists. split; [exact Hcreate|].
    unfold wlmtk_surface_request_size. simpl. rewrite Hvmt. simpl.
    split; [reflexivity|]. split; [exact Hsize|reflexivity].
Qed.

End WithElementBase.

(** The unit tests of surface.c, with element.c as the spec has it. *)
Example test_init_fini :
  (wlmtk_surface_init (H := element_c) 1%N None None (example_host None)).1.1
  = true
  /\ wlmtk_surface_element 1%N = 1%N
  /\ (wlmtk_surface_fini (H := element_c) 1%N
        (wlmtk_surface_init (H := element_c) 1%N None None
           (example_host None)).1.2
        (example_host None)).1
     = zero_surface.
Proof. repeat split. Qed.

Example test_fake_commit :
  match
    (wlmtk_fake_surface_create (H := element_c) (Some 1%N)
       (example_host None)).1
  with
  | Some fake_surface =>
      match wlmtk_surface_request_size (set_serial fake_surface 42) 200 100 with
      | Return (token, requested) =>
          token = 42
          /\ wlmtk_surface_get_size (Surface.surface requested)
               (Some 7) (Some 7)
             = (Some 0, Some 0)
          /\ wlmtk_surface_get_size
               (Surface.surface (wlmtk_fake_surface_commit requested))
               (Some 7) (Some 7)
             = (Some 200, Some 100)
      | Fault _ => False
      end
  | None => False
  end.
Proof. repeat split. Qed.

(** A commit of the backing surface 7, with the host of the examples: the
    surface takes over the current size of surface 7. Once the surface is
    finished the commit does not reach it. *)
Example commit_after_init :
  (fun r =>
     match r with
     | Return s => Some (committed_size s)
     | Fault _ => None
     end)
    (wl_signal_emit_commit 7%N 1%N example_surface example_init.2)
  = Some (Some 640, Some 480).
Proof. reflexivity. Qed.

Example commit_after_fini :
  wl_signal_emit_commit 7%N 1%N
    (wlmtk_surface_fini (H := element_c) 1%N example_surface example_init.2).1
    (wlmtk_surface_fini (H := element_c) 1%N example_surface example_init.2).2
  = Return zero_surface.
Proof. reflexivity. Qed.

Lemma surface_size_negotiation_witness :
  ((wlmtk_surface_init (H := element_c) 1%N None None (example_host None)).1.1
   = true
   /\ committed_size
        (wlmtk_surface_init (H := element_c) 1%N None None
           (example_host None)).1.2
      = (Some 0, Some 0))
  /\ exists fake_surface requested,
       (wlmtk_fake_surface_create (H := element_c) (Some 1%N)
          (example_host None)).1
       = Some fake_surface
       /\ wlmtk_surface_request_size (set_serial fake_surface 42) 200 100
          = Return (42, requested)
       /\ committed_size (Surface.surface requested) = (Some 0, Some 0)
       /\ committed_size
            (Surface.surface (wlmtk_fake_surface_commit requested))
          = (Some 200, Some 100).
Proof.
  destruct (surface_size_negotiation (H := element_c)
              (fun _ _ => eq_refl)) as (Hinit & _ & _ & _ & Hscenario).
  split.
  - exact (Hinit 1%N None None (example_host None)).
  - exact (Hscenario 1%N (example_host None)).
Defined.

(** *** Pointer motion *)

(** [pointer_motion] unfolded along the hit test: the base method runs
    first, and the rest is decided by [sub_surface_at] on the element the
    base method leaves. *)
Lemma pointer_motion_unfold surface x y time_msec h method :
  pointer_motion (orig_super_element_vmt surface) = Some method ->
  let element := (method (super_element surface) x y time_msec).2 in
  _wlmtk_surface_element_pointer_motion surface x y time_msec h
  = match sub_surface_at (scene h) element x y with
    | None => Return (false, set_super_element surface element, h)
    | Some (sub_surface, node_x, node_y) =>
        if decide (wlr_surface_ptr surface
                   = Some (wlr_surface_get_root_surface h sub_surface))
        then
          Return
            (true, set_super_element surface element,
             set_seat h
               (wlr_seat_pointer_notify_motion
                  (wlr_seat_pointer_notify_enter (seat h)
                     sub_surface node_x node_y)
                  time_msec node_x node_y))
        else Fault assertion_failed
    end.
Proof.
  intros Hmethod element.
  unfold _wlmtk_surface_element_pointer_motion, sub_surface_at.
  rewrite Hmethod. simpl. subst element.
  destruct (method (super_element surface) x y time_msec) as [inside element].
  simpl.
  destruct (wlr_scene_node_ptr element) as [node|]; [|reflexivity]. simpl.
  destruct (wlr_scene_node_coords (scene h) node) as [[lx ly]|];
    [|reflexivity]. simpl.
  destruct (wlr_scene_node_at (scene h) node _ _) as [[[hit node_x] node_y]|];
    [|reflexivity]. simpl.
  destruct (wlr_scene_node_type_of (scene h) hit);
    try (rewrite decide_True by discriminate; reflexivity).
  rewrite decide_False by (intros Hne; now apply Hne).
  destruct (wlr_scene_surface_try_from_buffer (scene h) hit) as [sub_surface|];
    [|reflexivity]. simpl.
  destruct (decide (wlr_surface_ptr surface = _)) as [Hroot|Hroot].
  - now rewrite (bool_decide_eq_true_2 _ Hroot).
  - now rewrite (bool_decide_eq_false_2 _ Hroot).
Qed.

(** A sub-surface under the pointer that is not part of this surface ends
    the program on the assertion. *)
Lemma pointer_motion_foreign_sub_surface
    surface x y time_msec h method sub_surface node_x node_y :
  pointer_motion (orig_super_element_vmt surface) = Some method ->
  sub_surface_at (scene h)
    (method (super_element surface) x y time_msec).2 x y
  = Some (sub_surface, node_x, node_y) ->
  wlr_surface_ptr surface
  <> Some (wlr_surface_get_root_surface h sub_surface) ->
  _wlmtk_surface_element_pointer_motion surface x y time_msec h
  = Fault assertion_failed.
Proof.
  intros Hmethod Hat Hroot.
  rewrite (pointer_motion_unfold _ _ _ _ _ _ Hmethod). simpl.
  rewrite Hat. now rewrite decide_False.
Qed.

(** The cases in which there is no sub-surface under the pointer. *)
Lemma sub_surface_at_None g element x y :
  sub_surface_at g element x y = None
  <-> wlr_scene_node_ptr element = None
      \/ (exists node,
            wlr_scene_node_ptr element = Some node
            /\ (wlr_scene_node_coords g node = None
                \/ exists lx ly,
                     wlr_scene_node_coords g node = Some (lx, ly)
                     /\ (wlr_scene_node_at g node
                           (PrimFloat.add x (double_of_int lx))
                           (PrimFloat.add y (double_of_int ly)) = None
                         \/ exists hit node_x node_y,
                              wlr_scene_node_at g node
                                (PrimFloat.add x (double_of_int lx))
                                (PrimFloat.add y (double_of_int ly))
                              = Some (hit, node_x, node_y)
                              /\ (wlr_scene_node_type_of g hit
                                  <> WLR_SCENE_NODE_BUFFER
                                  \/ wlr_scene_surface_try_from_buffer g hit
                                     = None)))).
Proof.
  unfold sub_surface_at.
  destruct (wlr_scene_node_ptr element) as [node|]; simpl;
    [|split; [now left|reflexivity]].
  destruct (wlr_scene_node_coords g node) as [[lx ly]|] eqn:Hcoords; simpl;
    [|split; [right; eauto|reflexivity]].
  destruct (wlr_scene_node_at g node _ _) as [[[hit node_x] node_y]|] eqn:Hat;
    simpl.
  - split.
    + intros Hnone. right. exists node. split; [reflexivity|]. right.
      exists lx, ly. split; [exact Hcoords|]. right.
      exists hit, node_x, node_y. split; [exact Hat|].
      destruct (wlr_scene_node_type_of g hit); [left; discriminate..|].
      right. now destruct (wlr_scene_surface_try_from_buffer g hit).
    + intros [[=]|(node' & [= <-] & [Hnone|(lx' & ly' & Hsome & Hrest)])].
      { congruence. }
      assert (lx' = lx /\ ly' = ly) as [-> ->] by (split; congruence).
      destruct Hrest as [Hnone|(hit' & nx' & ny' & Hsome' & [Htype|Hsurf])].
      { congruence. }
      * assert (hit' = hit) as -> by congruence.
        now destruct (wlr_scene_node_type_of g hit).
      * assert (hit' = hit) as -> by congruence.
        rewrite Hsurf. now destruct (wlr_scene_node_type_of g hit).
  - split; [|reflexivity]. intros _. right. exists node.
    split; [reflexivity|]. right. exists lx, ly. split; [exact Hcoords|].
    left. exact Hat.
Qed.

(** Pointer motion over the scene of the examples: over the buffer of the
    sub-surface 8, over a rectangle, on a disabled node, with no scene node,
    and over the buffer of the foreign surface 9. *)
Example pointer_motion_over_sub_surface :
  seat_after
    (_wlmtk_surface_element_pointer_motion (example_attached 100%N)
       25.5%float 3%float 77 (example_host None))
  ≫= (fun r => Return (r.1.1, r.2))
  = Return
      (true,
       {| focused_surface := Some 8%N;
          requests := [pointer_notify_enter 8%N 5.5%float 43%float;
                       pointer_notify_motion 77 5.5%float 43%float] |}).
Proof. vm_compute. reflexivity. Qed.

Example pointer_motion_over_rectangle :
  seat_after
    (_wlmtk_surface_element_pointer_motion (example_attached 100%N)
       5.5%float 3%float 77 (example_host None))
  ≫= (fun r => Return (r.1.1, r.2))
  = Return (false, {| focused_surface := None; requests := [] |}).
Proof. vm_compute. reflexivity. Qed.

Example pointer_motion_disabled_node :
  seat_after
    (_wlmtk_surface_element_pointer_motion (example_attached 200%N)
       25.5%float 3%float 77 (example_host None))
  ≫= (fun r => Return (r.1.1, r.2))
  = Return (false, {| focused_surface := None; requests := [] |}).
Proof. vm_compute. reflexivity. Qed.

Example pointer_motion_without_scene_node :
  seat_after
    (_wlmtk_surface_element_pointer_motion example_surface
       25.5%float 3%float 77 (example_host None))
  ≫= (fun r => Return (r.1.1, r.2))
  = Return (false, {| focused_surface := None; requests := [] |}).
Proof. vm_compute. reflexivity. Qed.

Example pointer_motion_over_foreign_surface :
  _wlmtk_surface_element_pointer_motion (example_attached 300%N)
    25.5%float 3%float 77 (example_host None)
  = Fault assertion_failed.
Proof. vm_compute. reflexivity. Qed.

Example pointer_motion_without_base_method :
  _wlmtk_surface_element_pointer_motion zero_surface
    25.5%float 3%float 77 (example_host None)
  = Fault null_dereference.
Proof. reflexivity. Qed.

(** C3. The surface's [pointer_motion] first calls the base element's
    [pointer_motion], and the element it leaves is the surface's element
    afterwards; then it tests what is under the pointer in the element's
    part of the scene graph. Where a sub-surface under the pointer is a part
    of this surface, as the code asserts: the call returns true exactly when
    there is a sub-surface under the pointer, and then the seat is notified
    of enter and then of motion, for that sub-surface and at the node-local
    coordinates of the hit; in every other case (no scene node, coordinates
    not available, no node under the pointer, a node that is no buffer, a
    buffer with no surface) it returns false and the host is left as it
    was. *)
Theorem pointer_motion_hit_test
    (surface : wlmtk_surface_t) (x y : double) (time_msec : Z) (h : wlr_host)
    (method : wlmtk_element_t -> double -> double -> Z -> bool * wlmtk_element_t) :
  pointer_motion (orig_super_element_vmt surface) = Some method ->
  let element := (method (super_element surface) x y time_msec).2 in
  (forall sub_surface node_x node_y,
     sub_surface_at (scene h) element x y
     = Some (sub_surface, node_x, node_y) ->
     wlr_surface_ptr surface
     = Some (wlr_surface_get_root_surface h sub_surface)) ->
  exists inside h',
    _wlmtk_surface_element_pointer_motion surface x y time_msec h
    = Return (inside, set_super_element surface element, h')
    /\ (inside = true <-> is_Some (sub_surface_at (scene h) element x y))
    /\ (forall sub_surface node_x node_y,
          sub_surface_at (scene h) element x y
          = Some (sub_surface, node_x, node_y) ->
          requests (seat h')
          = requests (seat h)
              ++ [pointer_notify_enter sub_surface node_x node_y;
                  pointer_notify_motion time_msec node_x node_y]
          /\ focused_surface (seat h') = Some sub_surface)
    /\ (inside = false -> h' = h)
    /\ (inside = false
        <-> wlr_scene_node_ptr element = None
            \/ (exists node,
                  wlr_scene_node_ptr element = Some node
                  /\ (wlr_scene_node_coords (scene h) node = None
                      \/ exists lx ly,
                           wlr_scene_node_coords (scene h) node = Some (lx, ly)
                           /\ (wlr_scene_node_at (scene h) node
                                 (PrimFloat.add x (double_of_int lx))
                                 (PrimFloat.add y (double_of_int ly)) = None
                               \/ exists hit node_x node_y,
                                    wlr_scene_node_at (scene h) node
                                      (PrimFloat.add x (double_of_int lx))
                                      (PrimFloat.add y (double_of_int ly))
                                    = Some (hit, node_x, node_y)
                                    /\ (wlr_scene_node_type_of (scene h) hit
                                        <> WLR_SCENE_NODE_BUFFER
                                        \/ wlr_scene_surface_try_from_buffer
                                             (scene h) hit
                                           = None))))).
Proof.
  intros Hmethod element Hpart.
  rewrite (pointer_motion_unfold _ _ _ _ _ _ Hmethod). fold element.
  pose proof (sub_surface_at_None (scene h) element x y) as Hnone.
  destruct (sub_surface_at (scene h) element x y)
    as [[[sub_surface node_x] node_y]|] eqn:Hat.
  - rewrite decide_True by exact (Hpart _ _ _ eq_refl).
    eexists _, _. split; [reflexivity|]. split; [|split; [|split]].
    + split; [eauto|reflexivity].
    + intros ? ? ? [= <- <- <-]. simpl. split; [|reflexivity].
      now rewrite <- app_assoc.
    + discriminate.
    + rewrite <- Hnone. split; discriminate.
  - eexists _, _. split; [reflexivity|]. split; [|split; [|split]].
    + split; [discriminate|]. intros [? [=]].
    + discriminate.
    + reflexivity.
    + rewrite <- Hnone. split; reflexivity.
Qed.

Lemma pointer_motion_hit_test_witness :
  exists surface' h',
    _wlmtk_surface_element_pointer_motion (example_attached 100%N)
      25.5%float 3%float 77 example_init.2
    = Return (true, surface', h')
    /\ last_pointer_x (super_element surface') = 25.5%float
    /\ last_pointer_time_msec (super_element surface') = 77
    /\ requests (seat h')
       = [pointer_notify_enter 8%N 5.5%float 43%float;
          pointer_notify_motion 77 5.5%float 43%float].
Proof.
  destruct
    (pointer_motion_hit_test (example_attached 100%N) 25.5%float 3%float 77
       example_init.2 spec_element_pointer_motion eq_refl)
    as (inside & h' & Hcall & Hinside & Hseat & _).
  - intros sub_surface node_x node_y Hat.
    vm_compute in Hat. injection Hat as <- _ _. reflexivity.
  - assert (Hat : sub_surface_at (scene example_init.2)
                    (spec_element_pointer_motion
                       (super_element (example_attached 100%N))
                       25.5%float 3%float 77).2 25.5%float 3%float
                  = Some (8%N, 5.5%float, 43%float))
      by (vm_compute; reflexivity).
    destruct (Hseat _ _ _ Hat) as [Hrequests _].
    assert (Htrue : inside = true) by (apply Hinside; rewrite Hat; eauto).
    subst inside. eexists _, h'. split; [exact Hcall|].
    split; [reflexivity|]. split; [reflexivity|]. exact Hrequests.
Defined.

(** *** Teardown *)

(** [element_c] keeps the contract of [wlmtk_element_fini]. *)
Lemma element_c_fini_releases : element_fini_releases (H := element_c).
Proof.
  intros element_ptr element h. simpl. split.
  - intros signal. apply wl_list_remove_unsubscribes.
  - intros sub Hin. now apply elem_of_wl_list_remove in Hin.
Qed.

Section Teardown.

Context `{ElementBase}.

(** [wlmtk_surface_init] on a surface whose listener is not subscribed yet
    sets up [subscribed_only_with_backing]. *)
Lemma wlmtk_surface_init_subscribed_only_with_backing
    surface_ptr backing env h :
  element_fini_releases ->
  (forall signal,
     (signal, surface_commit_listener_of surface_ptr) ∉ subscriptions h) ->
  subscribed_only_with_backing surface_ptr
    (wlmtk_surface_init surface_ptr backing env h).1.2
    (wlmtk_surface_init surface_ptr backing env h).2.
Proof.
  intros Hfini Hfresh. unfold wlmtk_surface_init. simpl.
  destruct (wlmtk_element_init _ env) as [[] element]; simpl.
  - destruct (wlmtk_element_extend _) as [orig_vmt element'].
    destruct backing as [backing|]; simpl.
    + intros Hnone. discriminate.
    + intros _. exact Hfresh.
  - unfold wlmtk_surface_fini. simpl.
    destruct (Hfini (wlmtk_surface_element surface_ptr) element h)
      as [_ Hsubset].
    destruct (wlmtk_element_fini _ _ _) as [element' h']. simpl in *.
    intros _ signal Hin. apply (Hfresh signal). now apply Hsubset.
Qed.

(** The commit handler keeps [subscribed_only_with_backing]. *)
Lemma wl_signal_emit_commit_subscribed_only_with_backing
    backing surface_ptr surface surface' h :
  subscribed_only_with_backing surface_ptr surface h ->
  wl_signal_emit_commit backing surface_ptr surface h = Return surface' ->
  subscribed_only_with_backing surface_ptr surface' h.
Proof.
  unfold wl_signal_emit_commit, handle_surface_commit. intros Hinv.
  destruct (decide _); [|now intros [= <-]].
  destruct (notify (surface_commit_listener surface)) as [[]|];
    [|discriminate]. simpl.
  destruct (wlr_surface_ptr surface) as [backing'|] eqn:Hptr; [|discriminate].
  simpl. intros [= <-]. unfold subscribed_only_with_backing. simpl.
  rewrite Hptr. discriminate.
Qed.

(** C8. After [wlmtk_surface_fini] the surface is zeroed, so its pointer to
    the backing surface is NULL, and its listener is a listener of no
    signal of the host: no commit signal emitted afterwards reaches the
    surface. With a base finaliser that keeps its contract, the element's
    destroy listener is released as well. *)
Theorem wlmtk_surface_fini_unsubscribes
    (surface_ptr : addr) (surface : wlmtk_surface_t) (h : wlr_host) :
  element_fini_releases ->
  subscribed_only_with_backing surface_ptr surface h ->
  (wlmtk_surface_fini surface_ptr surface h).1 = zero_surface
  /\ wlr_surface_ptr (wlmtk_surface_fini surface_ptr surface h).1 = None
  /\ (forall signal,
        (signal, surface_commit_listener_of surface_ptr)
        ∉ subscriptions (wlmtk_surface_fini surface_ptr surface h).2)
  /\ (forall signal,
        (signal,
         wlr_scene_node_destroy_listener_of (wlmtk_surface_element surface_ptr))
        ∉ subscriptions (wlmtk_surface_fini surface_ptr surface h).2)
  /\ (forall backing h',
        subscriptions h'
        = subscriptions (wlmtk_surface_fini surface_ptr surface h).2 ->
        wl_signal_emit_commit backing surface_ptr
          (wlmtk_surface_fini surface_ptr surface h).1 h'
        = Return (wlmtk_surface_fini surface_ptr surface h).1).
Proof.
  intros Hfini Hinv.
  assert (Hcommit :
    forall signal,
      (signal, surface_commit_listener_of surface_ptr)
      ∉ subscriptions (wlmtk_surface_fini surface_ptr surface h).2).
  { intros signal. unfold wlmtk_surface_fini.
    destruct (wlr_surface_ptr surface) as [backing|] eqn:Hptr;
      destruct_element_fini Hfini Hreleased Hsubset;
      intros Hin; apply Hsubset in Hin.
    - now apply wl_list_remove_unsubscribes in Hin.
    - now apply (Hinv Hptr signal). }
  assert (Hzero : (wlmtk_surface_fini surface_ptr surface h).1 = zero_surface).
  { unfold wlmtk_surface_fini.
    destruct (wlr_surface_ptr surface);
      now destruct (wlmtk_element_fini _ _ _). }
  split; [exact Hzero|]. split; [now rewrite Hzero|].
  split; [exact Hcommit|]. split.
  - intros signal. unfold wlmtk_surface_fini.
    destruct (wlr_surface_ptr surface);
      destruct_element_fini Hfini Hreleased Hsubset; apply Hreleased.
  - intros backing h' Hsubs. unfold wl_signal_emit_commit.
    rewrite decide_False; [reflexivity|].
    rewrite elem_of_wl_signal_listeners, Hsubs. apply Hcommit.
Qed.

End Teardown.

Lemma wlmtk_surface_fini_unsubscribes_witness :
  subscriptions example_init.2
  = [(events_commit 7%N, surface_commit_listener_of 1%N)]
  /\ (wlmtk_surface_fini (H := element_c) 1%N example_surface example_init.2).1
     = zero_surface
  /\ forall signal,
       (signal, surface_commit_listener_of 1%N)
       ∉ subscriptions
           (wlmtk_surface_fini (H := element_c) 1%N example_surface
              example_init.2).2.
Proof.
  split; [reflexivity|].
  destruct (wlmtk_surface_fini_unsubscribes (H := element_c) 1%N
              example_surface example_init.2 element_c_fini_releases)
    as (Hzero & _ & Hcommit & _).
  - intros Hnone. discriminate Hnone.
  - split; [exact Hzero|exact Hcommit].
Defined.

End SurfaceProperties.

(** ** The surface in use *)

Module SurfaceUse.

Import Surface.
Import SurfaceProperties.

(** *** Records and signals *)

Lemma set_subscriptions_same h : set_subscriptions h (subscriptions h) = h.
Proof. now destruct h. Qed.

Lemma set_subscriptions_twice h subs subs' :
  set_subscriptions (set_subscriptions h subs) subs'
  = set_subscriptions h subs'.
Proof. reflexivity. Qed.

(** Removing a listener leaves the other subscriptions as they are. *)
Lemma wl_list_remove_fresh listener subs :
  (forall signal, (signal, listener) ∉ subs) ->
  wl_list_remove listener subs = subs.
Proof.
  unfold wl_list_remove, wl_subscriptions.
  induction subs as [|[signal l] subs IH]; intros Hfresh.
  - reflexivity.
  - rewrite filter_cons. simpl.
    destruct (decide (l <> listener)) as [Hne|Heq].
    + f_equal. apply IH. intros signal' Hin.
      apply (Hfresh signal'). now right.
    + exfalso. apply (Hfresh signal).
      destruct (decide (l = listener)) as [->|Hne]; [now left|].
      now destruct Heq.
Qed.

(** Subscribing a listener and removing it again gives back the
    subscriptions there were. *)
Lemma wl_list_remove_wl_signal_add signal listener subs :
  (forall signal', (signal', listener) ∉ subs) ->
  wl_list_remove listener (wl_signal_add signal listener subs) = subs.
Proof.
  intros Hfresh. unfold wl_signal_add.
  pose proof (wl_list_remove_fresh _ _ Hfresh) as Hsame.
  unfold wl_list_remove, wl_subscriptions in *.
  rewrite filter_app, filter_cons, filter_nil. simpl.
  rewrite decide_False by (intros Hne; now apply Hne).
  rewrite app_nil_r. exact Hsame.
Qed.

(** *** Tables of methods *)

(** X1. [wlmtk_surface_extend] returns the table the surface had, replaces
    [request_size] only when the new table has one, and leaves everything
    else of the surface as it was. Extending with the same table again
    changes nothing more. Extending with the returned table puts the surface
    back when the surface had a [request_size] before; when it had none, the
    returned table has none either and the new method stays. *)
Theorem wlmtk_surface_extend_overrides
    (surface : wlmtk_surface_t) (table : wlmtk_surface_vmt_t) :
  let extended := (wlmtk_surface_extend surface table).2 in
  (wlmtk_surface_extend surface table).1 = vmt surface
  /\ request_size (vmt extended)
     = match request_size table with
       | Some method => Some method
       | None => request_size (vmt surface)
       end
  /\ extended = set_vmt surface (vmt extended)
  /\ (wlmtk_surface_extend extended table).2 = extended
  /\ (request_size table = None -> extended = surface)
  /\ (request_size (vmt surface) <> None ->
      (wlmtk_surface_extend extended (vmt surface)).2 = surface)
  /\ (request_size (vmt surface) = None ->
      (wlmtk_surface_extend extended (vmt surface)).2 = extended).
Proof.
  destruct surface as [element orig [impl] backing listener cw ch].
  destruct table as [[method|]]; unfold wlmtk_surface_extend; simpl.
  - repeat split; try reflexivity.
    + intros [=].
    + intros Himpl. destruct impl as [[]|]; [reflexivity|now destruct Himpl].
    + now intros ->.
  - repeat split; try reflexivity.
    + intros Himpl. destruct impl as [[]|]; [reflexivity|now destruct Himpl].
    + now intros ->.
Qed.

(** *** Committing a size *)

(** X2. The commit handler writes the two members of the committed size and
    nothing else of the surface, and it reads the host without changing it:
    handling the same commit again gives the same surface, and of two
    commits the later one decides the size. Without a backing surface the
    handler reads through NULL. *)
Theorem handle_surface_commit_writes_size
    (surface : wlmtk_surface_t) (h h2 : wlr_host) :
  (forall backing,
     wlr_surface_ptr surface = Some backing ->
     exists surface',
       handle_surface_commit surface h = Return surface'
       /\ surface'
          = set_committed surface
              (width (current (surfaces h backing)))
              (height (current (surfaces h backing)))
       /\ super_element surface' = super_element surface
       /\ vmt surface' = vmt surface
       /\ orig_super_element_vmt surface' = orig_super_element_vmt surface
       /\ wlr_surface_ptr surface' = wlr_surface_ptr surface
       /\ surface_commit_listener surface' = surface_commit_listener surface
       /\ handle_surface_commit surface' h = Return surface'
       /\ handle_surface_commit surface' h2 = handle_surface_commit surface h2)
  /\ (wlr_surface_ptr surface = None ->
      handle_surface_commit surface h = Fault null_dereference).
Proof.
  unfold handle_surface_commit. split.
  - intros backing Hbacking. rewrite Hbacking. simpl.
    eexists. split; [reflexivity|].
    repeat split; unfold _wlmtk_surface_commit_size; simpl;
      now rewrite ?Hbacking.
  - now intros ->.
Qed.

(** *** Initialisation and teardown *)

Section InitFini.

Context `{ElementBase}.

(** X3. When [wlmtk_element_init] fails, [wlmtk_surface_init] returns false
    and hands back a zeroed surface: the backing surface is not stored, its
    commit signal is not connected, and the host is as
    [wlmtk_element_fini] leaves it, called for the element that failed to
    initialise. *)
Theorem wlmtk_surface_init_failure
    (surface_ptr : addr) (backing env : option addr) (h : wlr_host) :
  (wlmtk_element_init zero_element env).1 = false ->
  wlmtk_surface_init surface_ptr backing env h
  = (false, zero_surface,
     (wlmtk_element_fini (wlmtk_surface_element surface_ptr)
        (wlmtk_element_init zero_element env).2 h).2).
Proof.
  unfold wlmtk_surface_init. simpl.
  destruct (wlmtk_element_init zero_element env) as [ok element]. simpl.
  intros ->. simpl. unfold wlmtk_surface_fini. simpl.
  now destruct (wlmtk_element_fini _ element h).
Qed.

(** X4. [wlmtk_surface_fini] undoes what [wlmtk_surface_init] did to the
    host. For a listener that was not subscribed before, initialising the
    surface and finishing it leaves a zeroed surface and the host that
    [wlmtk_element_fini] makes of the host before the initialisation: the
    subscription to the commit signal is gone and no other subscription was
    touched. *)
Theorem wlmtk_surface_init_fini_round_trip
    (surface_ptr : addr) (backing env : option addr) (h : wlr_host) :
  (wlmtk_element_init zero_element env).1 = true ->
  (forall signal,
     (signal, surface_commit_listener_of surface_ptr) ∉ subscriptions h) ->
  wlmtk_surface_fini surface_ptr
    (wlmtk_surface_init surface_ptr backing env h).1.2
    (wlmtk_surface_init surface_ptr backing env h).2
  = (zero_surface,
     (wlmtk_element_fini (wlmtk_surface_element surface_ptr)
        (super_element (wlmtk_surface_init surface_ptr backing env h).1.2)
        h).2).
Proof.
  intros Hok Hfresh. unfold wlmtk_surface_init. simpl.
  destruct (wlmtk_element_init zero_element env) as [ok element].
  simpl in Hok. subst ok. simpl.
  destruct (wlmtk_element_extend element) as [orig_vmt element'].
  destruct backing as [backing|]; unfold wlmtk_surface_fini; simpl.
  - unfold wlmtk_util_connect_listener_signal, set_subscriptions. simpl.
    rewrite (wl_list_remove_wl_signal_add _ _ _ Hfresh).
    fold (set_subscriptions h (subscriptions h)).
    rewrite set_subscriptions_same.
    now destruct (wlmtk_element_fini _ element' h).
  - now destruct (wlmtk_element_fini _ element' h).
Qed.

(** X5. After [wlmtk_surface_init] with a backing surface, on a host whose
    subscriptions are those the initialisation left, the commit signal of
    the backing surface sets the committed size, and the commit signal of
    any other surface leaves the surface as it is. After
    [wlmtk_surface_init] without a backing surface no commit signal reaches
    the surface. In none of these cases does the handler read through
    NULL. *)
Theorem commit_reaches_the_backing_surface_only
    (surface_ptr : addr) (env : option addr) (h0 h : wlr_host) :
  (wlmtk_element_init zero_element env).1 = true ->
  (forall signal,
     (signal, surface_commit_listener_of surface_ptr) ∉ subscriptions h0) ->
  (forall backing,
     subscriptions h
     = subscriptions
         (wlmtk_surface_init surface_ptr (Some backing) env h0).2 ->
     let surface :=
       (wlmtk_surface_init surface_ptr (Some backing) env h0).1.2 in
     wl_signal_emit_commit backing surface_ptr surface h
     = Return
         (set_committed surface
            (width (current (surfaces h backing)))
            (height (current (surfaces h backing))))
     /\ forall other,
          other <> backing ->
          wl_signal_emit_commit other surface_ptr surface h = Return surface)
  /\ (subscriptions h
      = subscriptions (wlmtk_surface_init surface_ptr None env h0).2 ->
      forall other,
        wl_signal_emit_commit other surface_ptr
          (wlmtk_surface_init surface_ptr None env h0).1.2 h
        = Return (wlmtk_surface_init surface_ptr None env h0).1.2).
Proof.
  intros Hok Hfresh. split.
  - intros backing Hsubs surface.
    destruct (wlmtk_surface_init_connects surface_ptr backing env h0 Hok)
      as (Hptr & Hnotify & Hinit).
    fold surface in Hptr, Hnotify. rewrite Hinit in Hsubs.
    unfold wl_signal_emit_commit. split.
    + rewrite decide_True.
      * rewrite Hnotify. simpl. unfold handle_surface_commit.
        now rewrite Hptr.
      * rewrite elem_of_wl_signal_listeners, Hsubs, elem_of_wl_signal_add.
        now right.
    + intros other Hother. rewrite decide_False; [reflexivity|].
      rewrite elem_of_wl_signal_listeners, Hsubs, elem_of_wl_signal_add.
      intros [Hin|[= Heq]]; [now apply (Hfresh _ Hin)|now apply Hother].
  - intros Hsubs other. unfold wl_signal_emit_commit.
    rewrite decide_False; [reflexivity|].
    rewrite elem_of_wl_signal_listeners, Hsubs.
    revert Hok. clear Hsubs. unfold wlmtk_surface_init. simpl.
    destruct (wlmtk_element_init zero_element env) as [ok element]. simpl.
    intros ->. simpl.
    destruct (wlmtk_element_extend element) as [orig_vmt element'].
    simpl. apply Hfresh.
Qed.

(** X6. [wlmtk_fake_surface_create] returns NULL when the allocation fails,
    and leaves the host alone. Otherwise, with a base initialiser that
    succeeds, the fake surface has the fake [request_size], no backing
    surface, serial 0 and the requested size (0, 0), and the host is left as
    it was: a fake surface subscribes to nothing. Destroying it leaves the
    host as [wlmtk_element_fini] makes it. *)
Theorem wlmtk_fake_surface_create_destroy (ptr : addr) (h : wlr_host) :
  (wlmtk_element_init zero_element None).1 = true ->
  wlmtk_fake_surface_create None h = (None, h)
  /\ exists fake_surface,
       wlmtk_fake_surface_create (Some ptr) h = (Some fake_surface, h)
       /\ vmt (surface fake_surface) = _wlmtk_fake_surface_vmt
       /\ wlr_surface_ptr (surface fake_surface) = None
       /\ serial fake_surface = 0
       /\ requested_width fake_surface = 0
       /\ requested_height fake_surface = 0
       /\ wlmtk_fake_surface_destroy ptr fake_surface h
          = (wlmtk_element_fini (wlmtk_surface_element ptr)
               (super_element (surface fake_surface)) h).2.
Proof.
  intros Hok. split; [reflexivity|].
  unfold wlmtk_fake_surface_create, wlmtk_surface_init. simpl.
  destruct (wlmtk_element_init zero_element None) as [ok element].
  simpl in Hok. subst ok. simpl.
  destruct (wlmtk_element_extend element) as [orig_vmt element'].
  simpl. eexists. split; [reflexivity|]. repeat split.
  unfold wlmtk_fake_surface_destroy, wlmtk_surface_fini. simpl.
  now destruct (wlmtk_element_fini _ element' h).
Qed.

End InitFini.

Lemma wlmtk_surface_init_failure_witness :
  wlmtk_surface_init (H := failing_element_c) 1%N (Some 7%N) None
    (example_host None)
  = (false, zero_surface, example_host None).
Proof.
  exact (wlmtk_surface_init_failure (H := failing_element_c) 1%N (Some 7%N)
           None (example_host None) eq_refl).
Defined.

Lemma wlmtk_surface_init_fini_round_trip_witness :
  wlmtk_surface_fini (H := element_c) 1%N example_surface example_init.2
  = (zero_surface, example_host None).
Proof.
  refine (wlmtk_surface_init_fini_round_trip (H := element_c) 1%N (Some 7%N)
            (Some 50%N) (example_host None) eq_refl _).
  intros signal Hin. simpl in Hin. now apply not_elem_of_nil in Hin.
Defined.

Lemma commit_reaches_the_backing_surface_only_witness :
  wl_signal_emit_commit 7%N 1%N example_surface example_init.2
  = Return (set_committed example_surface 640 480)
  /\ wl_signal_emit_commit 9%N 1%N example_surface example_init.2
     = Return example_surface.
Proof.
  destruct (commit_reaches_the_backing_surface_only (H := element_c) 1%N
              (Some 50%N) (example_host None) example_init.2 eq_refl)
    as [Hbacking _].
  - intros signal Hin. simpl in Hin. now apply not_elem_of_nil in Hin.
  - destruct (Hbacking 7%N eq_refl) as [Hcommit Hother].
    split; [exact Hcommit|]. apply Hother. discriminate.
Defined.

Lemma wlmtk_fake_surface_create_destroy_witness :
  wlmtk_fake_surface_create (H := element_c) None (example_host None)
  = (None, example_host None)
  /\ exists fake_surface,
       wlmtk_fake_surface_create (H := element_c) (Some 1%N)
         (example_host None)
       = (Some fake_surface, example_host None)
       /\ serial fake_surface = 0.
Proof.
  destruct (wlmtk_fake_surface_create_destroy (H := element_c) 1%N
              (example_host None) eq_refl)
    as (Hnull & fake_surface & Hcreate & _ & _ & Hserial & _).
  split; [exact Hnull|]. exists fake_surface. now split.
Defined.

(** *** Pointer events *)

(** What the pointer methods leave alone, as far as the rest of this part
    needs it. *)
Lemma pointer_leave_frame surface h :
  subscriptions (_wlmtk_surface_element_pointer_leave surface h)
  = subscriptions h.
Proof.
  unfold _wlmtk_surface_element_pointer_leave.
  destruct (focused_surface _); [|reflexivity].
  now destruct (decide _).
Qed.

Lemma pointer_button_frame surface button_event_ptr h consumed h' :
  _wlmtk_surface_element_pointer_button surface button_event_ptr h
  = Return (consumed, h') ->
  subscriptions h' = subscriptions h.
Proof.
  intros Hcall.
  now destruct (pointer_button_notified_or_not _ _ _ _ _ Hcall)
    as [[_ ->]|(_ & _ & ->)].
Qed.

Lemma pointer_motion_frame surface x y time_msec h inside surface' h' :
  _wlmtk_surface_element_pointer_motion surface x y time_msec h
  = Return (inside, surface', h') ->
  surface' = set_super_element surface (super_element surface')
  /\ subscriptions h' = subscriptions h
  /\ (inside = true ->
      exists sub_surface,
        focused_surface (seat h') = Some sub_surface
        /\ wlr_surface_ptr surface'
           = Some (wlr_surface_get_root_surface h' sub_surface)).
Proof.
  destruct (pointer_motion (orig_super_element_vmt surface))
    as [method|] eqn:Hmethod.
  - rewrite (pointer_motion_unfold _ _ _ _ _ _ Hmethod). simpl.
    destruct (sub_surface_at _ _ x y) as [[[sub_surface node_x] node_y]|].
    + destruct (decide (wlr_surface_ptr surface = _)) as [Hroot|Hroot];
        [|discriminate].
      intros [= <- <- <-]. repeat split.
      intros _. exists sub_surface. split; [reflexivity|exact Hroot].
    + intros [= <- <- <-]. repeat split. discriminate.
  - unfold _wlmtk_surface_element_pointer_motion. rewrite Hmethod.
    discriminate.
Qed.

(** X7. After [pointer_leave] the seat's pointer focus is on no surface
    of this surface: where a focused surface is left, its root is not the
    backing surface. A second [pointer_leave] changes nothing. The call
    makes at most one request of the seat, the one to clear the focus, and
    leaves surfaces, scene graph and subscriptions of the host alone. *)
Theorem pointer_leave_releases_focus
    (surface : wlmtk_surface_t) (h : wlr_host) :
  let h' := _wlmtk_surface_element_pointer_leave surface h in
  (forall focused,
     focused_surface (seat h') = Some focused ->
     Some (wlr_surface_get_root_surface h' focused) <> wlr_surface_ptr surface)
  /\ _wlmtk_surface_element_pointer_leave surface h' = h'
  /\ (h' = h
      \/ (focused_surface (seat h') = None
          /\ requests (seat h') = requests (seat h) ++ [pointer_clear_focus]))
  /\ surfaces h' = surfaces h
  /\ scene h' = scene h
  /\ subscriptions h' = subscriptions h.
Proof.
  unfold _wlmtk_surface_element_pointer_leave, wlmtk_env_wlr_seat,
    wlr_surface_get_root_surface.
  destruct (focused_surface (seat h)) as [focused|] eqn:Hfocus.
  - destruct (decide (Some (root_surface (surfaces h focused))
                      = wlr_surface_ptr surface)) as [Hroot|Hroot]; simpl.
    + split; [discriminate|]. repeat split. right. now split.
    + rewrite Hfocus. split; [now intros ? [= <-]|].
      rewrite decide_False by exact Hroot. repeat split. now left.
  - simpl. rewrite Hfocus. split; [discriminate|]. repeat split. now left.
Qed.

(** X8. [pointer_button] never moves the seat's pointer focus and never
    touches surfaces, scene graph or subscriptions of the host: when it
    returns, the only thing it may have done is to append one button request
    to the requests of the seat, which it has done exactly when it returns
    true. Hence a call that returned is followed by calls that return: once
    the assertion on the focus held, later button events do not fail on
    it. *)
Theorem pointer_button_keeps_focus
    (surface : wlmtk_surface_t) (button_event_ptr : wlmtk_button_event_t)
    (h h' : wlr_host) (consumed : bool) :
  _wlmtk_surface_element_pointer_button surface button_event_ptr h
  = Return (consumed, h') ->
  focused_surface (seat h') = focused_surface (seat h)
  /\ surfaces h' = surfaces h
  /\ scene h' = scene h
  /\ subscriptions h' = subscriptions h
  /\ requests (seat h')
     = requests (seat h)
         ++ (if consumed
             then [pointer_notify_button (time_msec button_event_ptr)
                     (button button_event_ptr)
                     (if bool_decide (type button_event_ptr = WLMTK_BUTTON_DOWN)
                      then WLR_BUTTON_PRESSED else WLR_BUTTON_RELEASED)]
             else [])
  /\ forall next_event,
       exists consumed' h'',
         _wlmtk_surface_element_pointer_button surface next_event h'
         = Return (consumed', h'').
Proof.
  intros Hcall.
  assert (Hnext : forall h1,
            focused_surface (seat h1) = focused_surface (seat h) ->
            surfaces h1 = surfaces h ->
            forall next_event,
            exists consumed' h'',
              _wlmtk_surface_element_pointer_button surface next_event h1
              = Return (consumed', h'')).
  { intros h1 Hfocus Hsurfaces next_event. revert Hcall.
    unfold _wlmtk_surface_element_pointer_button, wlmtk_env_wlr_seat,
      wlr_surface_get_root_surface.
    rewrite Hfocus, Hsurfaces.
    destruct (focused_surface (seat h)) as [focused|]; [|eauto].
    destruct (bool_decide (wlr_surface_ptr surface = _)); [|discriminate].
    simpl. intros _.
    destruct (bool_decide _ || bool_decide _); eauto. }
  destruct (pointer_button_notified_or_not _ _ _ _ _ Hcall)
    as [[-> ->]|(-> & _ & ->)].
  - repeat split; [now rewrite app_nil_r|]. now apply Hnext.
  - repeat split. now apply Hnext.
Qed.

(** X9. [pointer_motion] leaves the committed size, the backing surface,
    the listener and both tables of the surface as they were, and surfaces,
    scene graph and subscriptions of the host as well. When it returns true,
    the seat's pointer focus is on a surface whose root is the backing
    surface; when it returns false, the seat is as before. *)
Theorem pointer_motion_keeps_surface
    (surface surface' : wlmtk_surface_t) (x y : double) (time_msec : Z)
    (h h' : wlr_host) (inside : bool) :
  _wlmtk_surface_element_pointer_motion surface x y time_msec h
  = Return (inside, surface', h') ->
  surface' = set_super_element surface (super_element surface')
  /\ committed_size surface' = committed_size surface
  /\ surfaces h' = surfaces h
  /\ scene h' = scene h
  /\ subscriptions h' = subscriptions h
  /\ (inside = true ->
      exists sub_surface,
        focused_surface (seat h') = Some sub_surface
        /\ wlr_surface_ptr surface'
           = Some (wlr_surface_get_root_surface h' sub_surface))
  /\ (inside = false -> h' = h).
Proof.
  destruct (pointer_motion (orig_super_element_vmt surface))
    as [method|] eqn:Hmethod.
  - rewrite (pointer_motion_unfold _ _ _ _ _ _ Hmethod). simpl.
    destruct (sub_surface_at _ _ x y) as [[[sub_surface node_x] node_y]|].
    + destruct (decide (wlr_surface_ptr surface = _)) as [Hroot|Hroot];
        [|discriminate].
      intros [= <- <- <-]. repeat split; [|discriminate].
      intros _. exists sub_surface. split; [reflexivity|exact Hroot].
    + intros [= <- <- <-]. repeat split. discriminate.
  - unfold _wlmtk_surface_element_pointer_motion. rewrite Hmethod.
    discriminate.
Qed.

(** X10. The pointer methods fit together. After a [pointer_motion] that
    returned true, with the host not changed in between, [pointer_button]
    returns without failing its assertion and consumes exactly the down and
    up events, and [pointer_leave] clears the focus the motion gave. *)
Theorem pointer_motion_then_button_and_leave
    (surface surface' : wlmtk_surface_t) (x y : double) (time_msec : Z)
    (h h' : wlr_host) (button_event_ptr : wlmtk_button_event_t) :
  _wlmtk_surface_element_pointer_motion surface x y time_msec h
  = Return (true, surface', h') ->
  (exists h'',
     _wlmtk_surface_element_pointer_button surface' button_event_ptr h'
     = Return
         (bool_decide (type button_event_ptr = WLMTK_BUTTON_DOWN)
          || bool_decide (type button_event_ptr = WLMTK_BUTTON_UP),
          h''))
  /\ focused_surface
       (seat (_wlmtk_surface_element_pointer_leave surface' h')) = None
  /\ requests (seat (_wlmtk_surface_element_pointer_leave surface' h'))
     = requests (seat h') ++ [pointer_clear_focus].
Proof.
  intros Hmotion.
  destruct (pointer_motion_frame _ _ _ _ _ _ _ _ Hmotion)
    as (_ & _ & Hfocus).
  destruct (Hfocus eq_refl) as (sub_surface & Hfocused & Hroot).
  split.
  - unfold _wlmtk_surface_element_pointer_button, wlmtk_env_wlr_seat.
    rewrite Hfocused, (bool_decide_eq_true_2 _ Hroot). simpl.
    destruct (type button_event_ptr); simpl; eauto.
  - unfold _wlmtk_surface_element_pointer_leave, wlmtk_env_wlr_seat.
    rewrite Hfocused, decide_True by now symmetry. now split.
Qed.

Lemma pointer_button_keeps_focus_witness :
  exists h',
    _wlmtk_surface_element_pointer_button example_surface
      (example_button_event WLMTK_BUTTON_DOWN) (example_host (Some 8%N))
    = Return (true, h')
    /\ focused_surface (seat h') = Some 8%N
    /\ requests (seat h')
       = [pointer_notify_button 1000 272 WLR_BUTTON_PRESSED].
Proof.
  eexists. split; [reflexivity|].
  destruct (pointer_button_keeps_focus example_surface
              (example_button_event WLMTK_BUTTON_DOWN)
              (example_host (Some 8%N)) _ true eq_refl)
    as (Hfocus & _ & _ & _ & Hrequests & _).
  split; [exact Hfocus|exact Hrequests].
Defined.

Lemma pointer_motion_keeps_surface_witness :
  exists surface' h',
    _wlmtk_surface_element_pointer_motion (example_attached 100%N)
      25.5%float 3%float 77 example_init.2
    = Return (true, surface', h')
    /\ committed_size surface' = (Some 0, Some 0)
    /\ subscriptions h' = subscriptions example_init.2.
Proof.
  assert (Hcall :
    exists surface' h',
      _wlmtk_surface_element_pointer_motion (example_attached 100%N)
        25.5%float 3%float 77 example_init.2
      = Return (true, surface', h'))
    by (vm_compute; eauto).
  destruct Hcall as (surface' & h' & Hcall).
  destruct (pointer_motion_keeps_surface _ _ _ _ _ _ _ _ Hcall)
    as (_ & Hsize & _ & _ & Hsubs & _).
  exists surface', h'. split; [exact Hcall|]. split; [exact Hsize|exact Hsubs].
Defined.

Lemma pointer_motion_then_button_and_leave_witness :
  exists surface' h' h'',
    _wlmtk_surface_element_pointer_motion (example_attached 100%N)
      25.5%float 3%float 77 example_init.2
    = Return (true, surface', h')
    /\ _wlmtk_surface_element_pointer_button surface'
         (example_button_event WLMTK_BUTTON_DOWN) h'
       = Return (true, h'')
    /\ focused_surface
         (seat (_wlmtk_surface_element_pointer_leave surface' h')) = None.
Proof.
  assert (Hcall :
    exists surface' h',
      _wlmtk_surface_element_pointer_motion (example_attached 100%N)
        25.5%float 3%float 77 example_init.2
      = Return (true, surface', h'))
    by (vm_compute; eauto).
  destruct Hcall as (surface' & h' & Hcall).
  destruct (pointer_motion_then_button_and_leave _ _ _ _ _ _ _
              (example_button_event WLMTK_BUTTON_DOWN) Hcall)
    as ((h'' & Hbutton) & Hleave & _).
  exists surface', h', h''. split; [exact Hcall|].
  split; [exact Hbutton|exact Hleave].
Defined.

(** *** Extents *)

Section Extents.

Context `{ElementBase}.

(** A created fake surface has no backing surface, whether the base
    initialiser succeeded or not. *)
Lemma wlmtk_fake_surface_create_no_backing ptr h fake_surface :
  (wlmtk_fake_surface_create (Some ptr) h).1 = Some fake_surface ->
  wlr_surface_ptr (surface fake_surface) = None.
Proof.
  unfold wlmtk_fake_surface_create, wlmtk_surface_init. simpl.
  destruct (wlmtk_element_init zero_element None) as [[] element]; simpl.
  - destruct (wlmtk_element_extend element) as [orig_vmt element'].
    simpl. now intros [= <-].
  - unfold wlmtk_surface_fini. simpl.
    destruct (wlmtk_element_fini _ element h). simpl. now intros [= <-].
Qed.

(** X13. [get_dimensions] and [get_pointer_area] ask the backing surface
    for its extents before they look at their output pointers. Without a
    backing surface they read through NULL, whatever pointers they are
    given, and so they do for every fake surface that
    [wlmtk_fake_surface_create] returns. With a backing surface both
    return; each writes through exactly the pointers that are not NULL, and
    the two write the same left and top. *)
Theorem extents_need_a_backing_surface
    (surface : wlmtk_surface_t) (h : wlr_host)
    (left_ptr top_ptr right_ptr bottom_ptr : option Z) :
  (wlr_surface_ptr surface = None ->
   _wlmtk_surface_element_get_dimensions surface h
     left_ptr top_ptr right_ptr bottom_ptr
   = Fault null_dereference
   /\ _wlmtk_surface_element_get_pointer_area surface h
        left_ptr top_ptr right_ptr bottom_ptr
      = Fault null_dereference)
  /\ (forall ptr h0 fake_surface,
        (wlmtk_fake_surface_create (Some ptr) h0).1 = Some fake_surface ->
        _wlmtk_surface_element_get_dimensions (Surface.surface fake_surface) h
          left_ptr top_ptr right_ptr bottom_ptr
        = Fault null_dereference)
  /\ (forall backing,
        wlr_surface_ptr surface = Some backing ->
        exists l t r b r' b',
          _wlmtk_surface_element_get_dimensions surface h
            left_ptr top_ptr right_ptr bottom_ptr
          = Return (l, t, r, b)
          /\ _wlmtk_surface_element_get_pointer_area surface h
               left_ptr top_ptr right_ptr bottom_ptr
             = Return (l, t, r', b')
          /\ (l = None <-> left_ptr = None)
          /\ (t = None <-> top_ptr = None)
          /\ (r = None <-> right_ptr = None)
          /\ (b = None <-> bottom_ptr = None)
          /\ (r' = None <-> right_ptr = None)
          /\ (b' = None <-> bottom_ptr = None)).
Proof.
  unfold _wlmtk_surface_element_get_dimensions,
    _wlmtk_surface_element_get_pointer_area, wlr_surface_get_extends.
  split; [now intros ->|]. split.
  - intros ptr h0 fake_surface Hcreate.
    now rewrite (wlmtk_fake_surface_create_no_backing _ _ _ Hcreate).
  - intros backing ->. simpl.
    eexists _, _, _, _, _, _. split; [reflexivity|]. split; [reflexivity|].
    destruct left_ptr, top_ptr, right_ptr, bottom_ptr; simpl;
      repeat split; congruence.
Qed.

End Extents.

(** *** The fake surface *)

(** X11. On a fake surface, requests do not reach the committed size until
    the fake commit, and of several requests the last one is committed: two
    requests return the same serial, which no request and no commit
    changes; the commit after them leaves the size of the second; a second
    commit changes nothing; and a request after a commit leaves the
    committed size alone. *)
Theorem fake_surface_commits_last_request
    (fake_surface : wlmtk_fake_surface_t) (w1 h1 w2 h2 w3 h3 : Z) :
  request_size (vmt (surface fake_surface))
  = Some _wlmtk_fake_surface_request_size_impl ->
  exists first second third,
    wlmtk_surface_request_size fake_surface w1 h1
    = Return (serial fake_surface, first)
    /\ wlmtk_surface_request_size first w2 h2
       = Return (serial fake_surface, second)
    /\ committed_size (surface second) = committed_size (surface fake_surface)
    /\ committed_size (surface (wlmtk_fake_surface_commit second))
       = (Some w2, Some h2)
    /\ wlmtk_fake_surface_commit (wlmtk_fake_surface_commit second)
       = wlmtk_fake_surface_commit second
    /\ serial (wlmtk_fake_surface_commit second) = serial fake_surface
    /\ wlmtk_surface_request_size (wlmtk_fake_surface_commit second) w3 h3
       = Return (serial fake_surface, third)
    /\ committed_size (surface third) = (Some w2, Some h2).
Proof.
  intros Hvmt. unfold wlmtk_surface_request_size. rewrite Hvmt. simpl.
  eexists _, _, _. split; [reflexivity|]. simpl. rewrite Hvmt. simpl.
  split; [reflexivity|]. split; [reflexivity|]. split; [reflexivity|].
  split; [reflexivity|]. split; [reflexivity|].
  simpl. rewrite Hvmt. simpl. split; reflexivity.
Qed.

Lemma fake_surface_commits_last_request_witness :
  exists second,
    wlmtk_surface_request_size
      (_wlmtk_fake_surface_request_size example_fake_surface 200 100).2
      300 150
    = Return (42, second)
    /\ committed_size (surface (wlmtk_fake_surface_commit second))
       = (Some 300, Some 150).
Proof.
  destruct (fake_surface_commits_last_request example_fake_surface
              200 100 300 150 1 1 eq_refl)
    as (first & second & third & Hfirst & Hsecond & _ & Hcommit & _).
  injection Hfirst as <-.
  exists second. split; [exact Hsecond|exact Hcommit].
Defined.

(** *** From initialisation to teardown *)

(** What no event changes: the pointer to the backing surface, the
    listener's handler, the tables of methods, and the subscriptions of the
    host. *)
Lemma deliver_keeps_connection surface_ptr event surface h surface' h' :
  deliver surface_ptr event (surface, h) = Return (surface', h') ->
  wlr_surface_ptr surface' = wlr_surface_ptr surface
  /\ surface_commit_listener surface' = surface_commit_listener surface
  /\ vmt surface' = vmt surface
  /\ orig_super_element_vmt surface' = orig_super_element_vmt surface
  /\ subscriptions h' = subscriptions h.
Proof.
  destruct event as [sf sc st|backing|x y t|ev|]; simpl.
  - now intros [= <- <-].
  - unfold wl_signal_emit_commit, handle_surface_commit.
    destruct (decide _); [|now intros [= <- <-]].
    destruct (notify (surface_commit_listener surface)) as [[]|];
      [|discriminate]. simpl.
    destruct (wlr_surface_ptr surface) eqn:Hptr; [|discriminate].
    simpl. intros [= <- <-]. simpl. now rewrite Hptr.
  - destruct (_wlmtk_surface_element_pointer_motion surface x y t h)
      as [[[inside s1] h1]|] eqn:Hcall; [|discriminate].
    simpl. intros [= <- <-].
    destruct (pointer_motion_frame _ _ _ _ _ _ _ _ Hcall)
      as (Hsurface & Hsubs & _).
    rewrite Hsurface. now repeat split.
  - destruct (_wlmtk_surface_element_pointer_button surface ev h)
      as [[consumed h1]|] eqn:Hcall; [|discriminate].
    simpl. intros [= <- <-].
    pose proof (pointer_button_frame _ _ _ _ _ Hcall) as Hsubs.
    now repeat split.
  - intros [= <- <-].
    pose proof (pointer_leave_frame surface h) as Hsubs.
    now repeat split.
Qed.

Lemma deliver_all_keeps_connection surface_ptr events :
  forall surface h surface' h',
    deliver_all surface_ptr events (surface, h) = Return (surface', h') ->
    wlr_surface_ptr surface' = wlr_surface_ptr surface
    /\ surface_commit_listener surface' = surface_commit_listener surface
    /\ vmt surface' = vmt surface
    /\ orig_super_element_vmt surface' = orig_super_element_vmt surface
    /\ subscriptions h' = subscriptions h.
Proof.
  induction events as [|event events IH]; intros surface h surface' h'; simpl.
  - now intros [= <- <-].
  - destruct (deliver surface_ptr event (surface, h)) as [[s1 h1]|] eqn:Hone;
      [|discriminate].
    simpl. intros Hrest.
    destruct (deliver_keeps_connection _ _ _ _ _ _ Hone)
      as (Hptr & Hlistener & Hvmt & Horig & Hsubs).
    destruct (IH _ _ _ _ Hrest) as (Hptr' & Hlistener' & Hvmt' & Horig' & Hsubs').
    repeat split; congruence.
Qed.

Section Lifecycle.

Context `{ElementBase}.

(** X12. Whatever reaches a surface between its initialisation and its
    teardown (pointer motion, button events, pointer leave, commit signals
    of any surface, changes of the host's surfaces, scene graph and seat),
    in any order: if the program gets through the events, the surface still
    points to the backing surface it was initialised with, the
    subscriptions of the host are the ones the initialisation left, and
    [wlmtk_surface_fini] then leaves the subscriptions that
    [wlmtk_element_fini] makes of the ones before the initialisation. *)
Theorem surface_lifecycle
    (surface_ptr : addr) (backing env : option addr) (h0 : wlr_host)
    (events : list surface_event) (surface : wlmtk_surface_t) (h : wlr_host) :
  (wlmtk_element_init zero_element env).1 = true ->
  (forall signal,
     (signal, surface_commit_listener_of surface_ptr) ∉ subscriptions h0) ->
  deliver_all surface_ptr events
    ((wlmtk_surface_init surface_ptr backing env h0).1.2,
     (wlmtk_surface_init surface_ptr backing env h0).2)
  = Return (surface, h) ->
  wlr_surface_ptr surface = backing
  /\ subscriptions h
     = subscriptions (wlmtk_surface_init surface_ptr backing env h0).2
  /\ (wlmtk_surface_fini surface_ptr surface h).1 = zero_surface
  /\ subscriptions (wlmtk_surface_fini surface_ptr surface h).2
     = subscriptions
         (wlmtk_element_fini (wlmtk_surface_element surface_ptr)
            (super_element surface)
            (set_subscriptions h (subscriptions h0))).2.
Proof.
  intros Hok Hfresh Hrun.
  destruct (deliver_all_keeps_connection _ _ _ _ _ _ Hrun)
    as (Hptr & _ & _ & _ & Hsubs).
  assert (Hinit :
    wlr_surface_ptr (wlmtk_surface_init surface_ptr backing env h0).1.2
    = backing
    /\ subscriptions (wlmtk_surface_init surface_ptr backing env h0).2
       = match backing with
         | Some b =>
             wl_signal_add (events_commit b)
               (surface_commit_listener_of surface_ptr) (subscriptions h0)
         | None => subscriptions h0
         end).
  { clear Hrun Hptr Hsubs. revert Hok. unfold wlmtk_surface_init. simpl.
    destruct (wlmtk_element_init zero_element env) as [ok element]. simpl.
    intros ->. simpl.
    destruct (wlmtk_element_extend element) as [orig_vmt element'].
    now destruct backing. }
  destruct Hinit as [Hptr0 Hsubs0].
  rewrite Hptr0 in Hptr. split; [exact Hptr|]. split; [exact Hsubs|].
  rewrite Hsubs0 in Hsubs. unfold wlmtk_surface_fini. rewrite Hptr.
  destruct backing as [b|].
  - rewrite Hsubs, (wl_list_remove_wl_signal_add _ _ _ Hfresh).
    now destruct (wlmtk_element_fini _ _ _).
  - rewrite <- Hsubs, set_subscriptions_same.
    now destruct (wlmtk_element_fini _ _ _).
Qed.

End Lifecycle.

Lemma surface_lifecycle_witness :
  exists surface h,
    deliver_all 1%N example_events (example_surface, example_init.2)
    = Return (surface, h)
    /\ wlr_surface_ptr surface = Some 7%N
    /\ subscriptions h
       = [(events_commit 7%N, surface_commit_listener_of 1%N)]
    /\ subscriptions (wlmtk_surface_fini (H := element_c) 1%N surface h).2
       = [].
Proof.
  assert (Hrun :
    exists surface h,
      deliver_all 1%N example_events (example_surface, example_init.2)
      = Return (surface, h))
    by (vm_compute; eauto).
  destruct Hrun as (surface & h & Hrun).
  destruct (surface_lifecycle (H := element_c) 1%N (Some 7%N) (Some 50%N)
              (example_host None) example_events surface h eq_refl)
    as (Hptr & Hsubs & _ & Hfini).
  - intros signal Hin. simpl in Hin. now apply not_elem_of_nil in Hin.
  - exact Hrun.
  - exists surface, h. split; [exact Hrun|]. split; [exact Hptr|].
    split; [exact Hsubs|exact Hfini].
Defined.

(** The same events, step by step: what the seat was asked, and the size
    the commit left. *)
Example example_events_run :
  (fun r =>
     match r with
     | Return (surface, h) => Some (committed_size surface, seat h)
     | Fault _ => None
     end)
    (deliver_all 1%N example_events (example_surface, example_init.2))
  = Some
      ((Some 640, Some 480),
       {| focused_surface := None;
          requests :=
            [pointer_notify_button 1000 272 WLR_BUTTON_PRESSED;
             pointer_notify_button 1000 272 WLR_BUTTON_RELEASED;
             pointer_clear_focus] |}).
Proof. vm_compute. reflexivity. Qed.

End SurfaceUse.
